(** * DeFiAgentFHE: the aggregation and decryption-oracle protocol

    A shallow embedding of the Solidity contract [DeFiAgentFHE]
    (the contract text that follows the dashboard in
    [src/frontend/web/src/app.tsx]) and the properties of its round
    lifecycle, encrypted aggregation, cooldown bookkeeping and
    decryption callback.

    Storage mappings are finite maps read with the Solidity default
    value; [uint256] values are integers of [Z] and the checked
    arithmetic of Solidity 0.8 is written out (an overflowing [+] or
    [++] aborts the call).  A call runs in a small state-and-error monad:
    a [revert] discards every write of the call. *)

From Stdlib Require Import ZArith List Bool Lia Permutation.
From Stdlib Require Import Strings.Byte Strings.String.
From stdpp Require Import base option gmap.
Import ListNotations.

Local Open Scope Z_scope.

(** ** Machine integers *)

Abbreviation address := Z (only parsing).
Abbreviation uint256 := Z (only parsing).
Abbreviation bytes32 := Z (only parsing).
Abbreviation bytes := (list byte) (only parsing).

Definition MAX_UINT256 : Z := 2 ^ 256 - 1.

(** ** The ciphertext engine and the decryption oracle

    The library [FHE] (imported from [@fhevm/solidity]) is not part of
    the repository: its operations are the fields of this class.
    [euint32_default] is the value an [euint32] storage slot holds
    before it is first written. *)

Class FHEVM : Type := {
  euint32 : Type;
  euint32_default : euint32;
  FHE_asEuint32 : Z -> euint32;
  FHE_add : euint32 -> euint32 -> euint32;
  FHE_sub : euint32 -> euint32 -> euint32;
  FHE_isInitialized : euint32 -> bool;
  FHE_toBytes32 : euint32 -> bytes32;
  FHE_checkSignatures : uint256 -> bytes -> bytes -> bool;
  (** [keccak256(abi.encode(cts, a))] *)
  keccak256_abi_encode : list bytes32 -> address -> bytes32;
  (** [address(this)] *)
  address_this : address
}.

(** ** Errors and events *)

Inductive Error : Type :=
| NotOwner
| NotProvider
| Paused
| CooldownActive
| BatchClosedOrInvalid
| ReplayAttempt
| StateMismatch
| InvalidProof
| NotInitialized
| ArithmeticPanic      (* Panic(0x11): checked arithmetic overflowed *)
| SliceOutOfBounds.    (* an index range reaches past the end of the array *)

Inductive Event : Type :=
| OwnershipTransferred (previousOwner newOwner : address)
| ProviderAdded (provider : address)
| ProviderRemoved (provider : address)
| ContractPaused (account : address)
| ContractUnpaused (account : address)
| CooldownSecondsSet (oldCooldownSeconds newCooldownSeconds : uint256)
| BatchOpened (batchId : uint256)
| BatchClosed (batchId : uint256)
| PortfolioDataSubmitted (user : address) (batchId : uint256)
| DecryptionRequested (requestId batchId : uint256)
| DecryptionCompleted (requestId batchId : uint256)
    (totalValueSum riskPreferenceSum rebalanceAmount1 rebalanceAmount2 : uint256).

Inductive Result (A : Type) : Type :=
| Ok (a : A)
| Revert (e : Error).
Arguments Ok {A} a.
Arguments Revert {A} e.

(** ** Byte strings: index ranges and [abi.decode] *)

(** [b[lo:hi]]; the range must lie inside the array. *)
Definition slice (b : bytes) (lo hi : nat) : option bytes :=
  if (hi <=? length b)%nat then Some (firstn (hi - lo) (skipn lo b)) else None.

(** A big-endian word, as [abi.decode(_, (uint256))] reads it. *)
Definition abi_decode_uint256 (w : bytes) : uint256 :=
  fold_left (fun acc x => acc * 256 + Z.of_N (Byte.to_N x)) w 0.

(** ** Storage *)

Section Contract.
Context {E : FHEVM}.

Record DecryptionContext : Type := mkDecryptionContext {
  batchId : uint256;
  stateHash : bytes32;
  processed : bool
}.

Record UserPortfolioState : Type := mkUserPortfolioState {
  totalValueEncrypted : euint32;
  riskPreferenceEncrypted : euint32;
  targetAllocation1Encrypted : euint32;
  targetAllocation2Encrypted : euint32;
  currentAllocation1Encrypted : euint32;
  currentAllocation2Encrypted : euint32
}.

Record BatchAggregatedResults : Type := mkBatchAggregatedResults {
  totalValueSumEncrypted : euint32;
  riskPreferenceSumEncrypted : euint32;
  rebalanceAmount1Encrypted : euint32;
  rebalanceAmount2Encrypted : euint32
}.

Record State : Type := mkState {
  owner : address;
  providers : gmap Z bool;
  paused : bool;
  cooldownSeconds : uint256;
  lastSubmissionTime : gmap Z Z;
  lastDecryptionRequestTime : gmap Z Z;
  currentBatchId : uint256;
  batchClosed : gmap Z bool;
  decryptionContexts : gmap Z DecryptionContext;
  userStates : gmap Z UserPortfolioState;
  batchResults : gmap Z BatchAggregatedResults
}.

(** The values of slots that were never written. *)
Definition DecryptionContext_default : DecryptionContext :=
  mkDecryptionContext 0 0 false.
Definition UserPortfolioState_default : UserPortfolioState :=
  mkUserPortfolioState euint32_default euint32_default euint32_default
                       euint32_default euint32_default euint32_default.
Definition BatchAggregatedResults_default : BatchAggregatedResults :=
  mkBatchAggregatedResults euint32_default euint32_default
                           euint32_default euint32_default.

(** Reading a mapping: [m[k]]. *)
Definition providers_at (s : State) (a : address) : bool :=
  default false (providers s !! a).
Definition lastSubmissionTime_at (s : State) (a : address) : uint256 :=
  default 0 (lastSubmissionTime s !! a).
Definition lastDecryptionRequestTime_at (s : State) (a : address) : uint256 :=
  default 0 (lastDecryptionRequestTime s !! a).
Definition batchClosed_at (s : State) (b : uint256) : bool :=
  default false (batchClosed s !! b).
Definition decryptionContexts_at (s : State) (r : uint256) : DecryptionContext :=
  default DecryptionContext_default (decryptionContexts s !! r).
Definition userStates_at (s : State) (a : address) : UserPortfolioState :=
  default UserPortfolioState_default (userStates s !! a).
Definition batchResults_at (s : State) (b : uint256) : BatchAggregatedResults :=
  default BatchAggregatedResults_default (batchResults s !! b).

(** Writing a storage variable. *)
Definition set_owner (v : address) (s : State) : State :=
  mkState v (providers s) (paused s) (cooldownSeconds s) (lastSubmissionTime s)
    (lastDecryptionRequestTime s) (currentBatchId s) (batchClosed s)
    (decryptionContexts s) (userStates s) (batchResults s).
Definition set_providers (v : gmap Z bool) (s : State) : State :=
  mkState (owner s) v (paused s) (cooldownSeconds s) (lastSubmissionTime s)
    (lastDecryptionRequestTime s) (currentBatchId s) (batchClosed s)
    (decryptionContexts s) (userStates s) (batchResults s).
Definition set_paused (v : bool) (s : State) : State :=
  mkState (owner s) (providers s) v (cooldownSeconds s) (lastSubmissionTime s)
    (lastDecryptionRequestTime s) (currentBatchId s) (batchClosed s)
    (decryptionContexts s) (userStates s) (batchResults s).
Definition set_cooldownSeconds (v : uint256) (s : State) : State :=
  mkState (owner s) (providers s) (paused s) v (lastSubmissionTime s)
    (lastDecryptionRequestTime s) (currentBatchId s) (batchClosed s)
    (decryptionContexts s) (userStates s) (batchResults s).
Definition set_lastSubmissionTime (v : gmap Z Z) (s : State) : State :=
  mkState (owner s) (providers s) (paused s) (cooldownSeconds s) v
    (lastDecryptionRequestTime s) (currentBatchId s) (batchClosed s)
    (decryptionContexts s) (userStates s) (batchResults s).
Definition set_lastDecryptionRequestTime (v : gmap Z Z) (s : State) : State :=
  mkState (owner s) (providers s) (paused s) (cooldownSeconds s)
    (lastSubmissionTime s) v (currentBatchId s) (batchClosed s)
    (decryptionContexts s) (userStates s) (batchResults s).
Definition set_currentBatchId (v : uint256) (s : State) : State :=
  mkState (owner s) (providers s) (paused s) (cooldownSeconds s)
    (lastSubmissionTime s) (lastDecryptionRequestTime s) v (batchClosed s)
    (decryptionContexts s) (userStates s) (batchResults s).
Definition set_batchClosed (v : gmap Z bool) (s : State) : State :=
  mkState (owner s) (providers s) (paused s) (cooldownSeconds s)
    (lastSubmissionTime s) (lastDecryptionRequestTime s) (currentBatchId s) v
    (decryptionContexts s) (userStates s) (batchResults s).
Definition set_decryptionContexts (v : gmap Z DecryptionContext) (s : State) : State :=
  mkState (owner s) (providers s) (paused s) (cooldownSeconds s)
    (lastSubmissionTime s) (lastDecryptionRequestTime s) (currentBatchId s)
    (batchClosed s) v (userStates s) (batchResults s).
Definition set_userStates (v : gmap Z UserPortfolioState) (s : State) : State :=
  mkState (owner s) (providers s) (paused s) (cooldownSeconds s)
    (lastSubmissionTime s) (lastDecryptionRequestTime s) (currentBatchId s)
    (batchClosed s) (decryptionContexts s) v (batchResults s).
Definition set_batchResults (v : gmap Z BatchAggregatedResults) (s : State) : State :=
  mkState (owner s) (providers s) (paused s) (cooldownSeconds s)
    (lastSubmissionTime s) (lastDecryptionRequestTime s) (currentBatchId s)
    (batchClosed s) (decryptionContexts s) (userStates s) v.

(** Writing one member of a struct held in storage. *)
Definition with_totalValueSumEncrypted (v : euint32) (r : BatchAggregatedResults) :=
  mkBatchAggregatedResults v (riskPreferenceSumEncrypted r)
    (rebalanceAmount1Encrypted r) (rebalanceAmount2Encrypted r).
Definition with_riskPreferenceSumEncrypted (v : euint32) (r : BatchAggregatedResults) :=
  mkBatchAggregatedResults (totalValueSumEncrypted r) v
    (rebalanceAmount1Encrypted r) (rebalanceAmount2Encrypted r).
Definition with_rebalanceAmount1Encrypted (v : euint32) (r : BatchAggregatedResults) :=
  mkBatchAggregatedResults (totalValueSumEncrypted r) (riskPreferenceSumEncrypted r)
    v (rebalanceAmount2Encrypted r).
Definition with_rebalanceAmount2Encrypted (v : euint32) (r : BatchAggregatedResults) :=
  mkBatchAggregatedResults (totalValueSumEncrypted r) (riskPreferenceSumEncrypted r)
    (rebalanceAmount1Encrypted r) v.

Definition with_totalValueEncrypted (v : euint32) (u : UserPortfolioState) :=
  mkUserPortfolioState v (riskPreferenceEncrypted u) (targetAllocation1Encrypted u)
    (targetAllocation2Encrypted u) (currentAllocation1Encrypted u)
    (currentAllocation2Encrypted u).
Definition with_riskPreferenceEncrypted (v : euint32) (u : UserPortfolioState) :=
  mkUserPortfolioState (totalValueEncrypted u) v (targetAllocation1Encrypted u)
    (targetAllocation2Encrypted u) (currentAllocation1Encrypted u)
    (currentAllocation2Encrypted u).
Definition with_targetAllocation1Encrypted (v : euint32) (u : UserPortfolioState) :=
  mkUserPortfolioState (totalValueEncrypted u) (riskPreferenceEncrypted u) v
    (targetAllocation2Encrypted u) (currentAllocation1Encrypted u)
    (currentAllocation2Encrypted u).
Definition with_targetAllocation2Encrypted (v : euint32) (u : UserPortfolioState) :=
  mkUserPortfolioState (totalValueEncrypted u) (riskPreferenceEncrypted u)
    (targetAllocation1Encrypted u) v (currentAllocation1Encrypted u)
    (currentAllocation2Encrypted u).
Definition with_currentAllocation1Encrypted (v : euint32) (u : UserPortfolioState) :=
  mkUserPortfolioState (totalValueEncrypted u) (riskPreferenceEncrypted u)
    (targetAllocation1Encrypted u) (targetAllocation2Encrypted u) v
    (currentAllocation2Encrypted u).
Definition with_currentAllocation2Encrypted (v : euint32) (u : UserPortfolioState) :=
  mkUserPortfolioState (totalValueEncrypted u) (riskPreferenceEncrypted u)
    (targetAllocation1Encrypted u) (targetAllocation2Encrypted u)
    (currentAllocation1Encrypted u) v.

(** ** The execution monad

    A call sees its environment ([msg.sender], [block.timestamp], and the
    request id the decryption oracle hands out to this call), reads and
    writes the storage and appends to the event log, or reverts. *)

Record Env : Type := mkEnv {
  msg_sender : address;
  block_timestamp : uint256;
  oracle_requestId : uint256
}.

Definition M (A : Type) : Type :=
  Env -> State -> list Event -> Result (A * State * list Event).

Definition ret {A} (a : A) : M A := fun _ s l => Ok (a, s, l).
Definition bind {A B} (m : M A) (k : A -> M B) : M B :=
  fun e s l =>
    match m e s l with
    | Ok (a, s', l') => k a e s' l'
    | Revert err => Revert err
    end.
Definition revert {A} (err : Error) : M A := fun _ _ _ => Revert err.
Definition ask {A} (f : Env -> A) : M A := fun e s l => Ok (f e, s, l).
Definition gets {A} (f : State -> A) : M A := fun _ s l => Ok (f s, s, l).
Definition modify (f : State -> State) : M unit := fun _ s l => Ok (tt, f s, l).
Definition emit (ev : Event) : M unit := fun _ s l => Ok (tt, s, l ++ [ev]).
Definition when (b : bool) (m : M unit) : M unit := if b then m else ret tt.

End Contract.

Declare Scope sol_scope.
Delimit Scope sol_scope with sol.
Notation "'let*' x ':=' m 'in' k" := (bind m (fun x => k))
  (at level 10, x name, m at level 100, k at level 200) : sol_scope.
Notation "m ;; k" := (bind m (fun _ => k))
  (at level 100, k at level 200, right associativity) : sol_scope.

(** ** The contract *)

Section Functions.
Context {E : FHEVM}.
Local Open Scope sol_scope.

(** Checked [uint256] addition. *)
Definition checked_add (a b : uint256) : M uint256 :=
  if a + b <=? MAX_UINT256 then ret (a + b) else revert ArithmeticPanic.

(** Modifiers. *)
Definition onlyOwner {A} (body : M A) : M A :=
  let* sender := ask msg_sender in
  let* o := gets owner in
  if negb (sender =? o) then revert NotOwner else body.

Definition onlyProvider {A} (body : M A) : M A :=
  let* sender := ask msg_sender in
  let* p := gets (fun s => providers_at s sender) in
  if negb p then revert NotProvider else body.

Definition whenNotPaused {A} (body : M A) : M A :=
  let* p := gets paused in
  if p then revert Paused else body.

(** The storage left by the constructor, run by [deployer]. *)
Definition storage_zero : State :=
  mkState 0 ∅ false 0 ∅ ∅ 0 ∅ ∅ ∅ ∅.

Definition constructor : M unit :=
  let* sender := ask msg_sender in
  modify (set_owner sender) ;;
  let* o := gets owner in
  modify (fun s => set_providers (<[o := true]> (providers s)) s) ;;
  emit (ProviderAdded o) ;;
  modify (set_currentBatchId 1) ;;
  modify (set_cooldownSeconds 60).

Definition transferOwnership (newOwner : address) : M unit :=
  onlyOwner (
    let* previousOwner := gets owner in
    modify (set_owner newOwner) ;;
    emit (OwnershipTransferred previousOwner newOwner)).

Definition addProvider (provider : address) : M unit :=
  onlyOwner (
    modify (fun s => set_providers (<[provider := true]> (providers s)) s) ;;
    emit (ProviderAdded provider)).

Definition removeProvider (provider : address) : M unit :=
  onlyOwner (
    modify (fun s => set_providers (<[provider := false]> (providers s)) s) ;;
    emit (ProviderRemoved provider)).

Definition setPaused (_paused : bool) : M unit :=
  onlyOwner (
    let* sender := ask msg_sender in
    if _paused then
      modify (set_paused true) ;;
      emit (ContractPaused sender)
    else
      modify (set_paused false) ;;
      emit (ContractUnpaused sender)).

Definition setCooldownSeconds (newCooldownSeconds : uint256) : M unit :=
  onlyOwner (
    let* oldCooldownSeconds := gets cooldownSeconds in
    modify (set_cooldownSeconds newCooldownSeconds) ;;
    emit (CooldownSecondsSet oldCooldownSeconds newCooldownSeconds)).

Definition openNewBatch : M unit :=
  onlyOwner (whenNotPaused (
    let* cur := gets currentBatchId in
    let* next := checked_add cur 1 in
    modify (set_currentBatchId next) ;;
    let* cur' := gets currentBatchId in
    emit (BatchOpened cur'))).

Definition closeCurrentBatch : M unit :=
  onlyOwner (whenNotPaused (
    let* cur := gets currentBatchId in
    let* closed := gets (fun s => batchClosed_at s cur) in
    when ((cur =? 0) || closed) (revert BatchClosedOrInvalid) ;;
    modify (fun s => set_batchClosed (<[cur := true]> (batchClosed s)) s) ;;
    emit (BatchClosed cur))).

(** Writes through the storage pointers [state = userStates[a]] and
    [results = batchResults[b]]. *)
Definition write_state (a : address) (f : UserPortfolioState -> UserPortfolioState)
  : M unit :=
  modify (fun s => set_userStates (<[a := f (userStates_at s a)]> (userStates s)) s).

Definition write_results (b : uint256)
  (f : BatchAggregatedResults -> BatchAggregatedResults) : M unit :=
  modify (fun s => set_batchResults (<[b := f (batchResults_at s b)]> (batchResults s)) s).

Definition read_results {A} (b : uint256) (f : BatchAggregatedResults -> A) : M A :=
  gets (fun s => f (batchResults_at s b)).

Definition submitPortfolioData
  (totalValue riskPreference targetAllocation1 targetAllocation2
   currentAllocation1 currentAllocation2 : euint32) : M unit :=
  onlyProvider (whenNotPaused (
    let* sender := ask msg_sender in
    let* now := ask block_timestamp in
    let* last := gets (fun s => lastSubmissionTime_at s sender) in
    let* cooldown := gets cooldownSeconds in
    let* ready := checked_add last cooldown in
    when (now <? ready) (revert CooldownActive) ;;
    let* cur := gets currentBatchId in
    let* closed := gets (fun s => batchClosed_at s cur) in
    when closed (revert BatchClosedOrInvalid) ;;

    modify (fun s => set_lastSubmissionTime (<[sender := now]> (lastSubmissionTime s)) s) ;;

    write_state sender (with_totalValueEncrypted totalValue) ;;
    write_state sender (with_riskPreferenceEncrypted riskPreference) ;;
    write_state sender (with_targetAllocation1Encrypted targetAllocation1) ;;
    write_state sender (with_targetAllocation2Encrypted targetAllocation2) ;;
    write_state sender (with_currentAllocation1Encrypted currentAllocation1) ;;
    write_state sender (with_currentAllocation2Encrypted currentAllocation2) ;;

    let* initialized := read_results cur (fun r => FHE_isInitialized (totalValueSumEncrypted r)) in
    when (negb initialized) (
      write_results cur (with_totalValueSumEncrypted (FHE_asEuint32 0)) ;;
      write_results cur (with_riskPreferenceSumEncrypted (FHE_asEuint32 0)) ;;
      write_results cur (with_rebalanceAmount1Encrypted (FHE_asEuint32 0)) ;;
      write_results cur (with_rebalanceAmount2Encrypted (FHE_asEuint32 0))) ;;

    let* tv := read_results cur totalValueSumEncrypted in
    write_results cur (with_totalValueSumEncrypted (FHE_add tv totalValue)) ;;
    let* rp := read_results cur riskPreferenceSumEncrypted in
    write_results cur (with_riskPreferenceSumEncrypted (FHE_add rp riskPreference)) ;;

    let diff1 := FHE_sub targetAllocation1 currentAllocation1 in
    let diff2 := FHE_sub targetAllocation2 currentAllocation2 in
    let* r1 := read_results cur rebalanceAmount1Encrypted in
    write_results cur (with_rebalanceAmount1Encrypted (FHE_add r1 diff1)) ;;
    let* r2 := read_results cur rebalanceAmount2Encrypted in
    write_results cur (with_rebalanceAmount2Encrypted (FHE_add r2 diff2)) ;;

    emit (PortfolioDataSubmitted sender cur))).

Definition _requireInitialized (cipher : euint32) (message : string) : M unit :=
  when (negb (FHE_isInitialized cipher)) (revert NotInitialized).

(** The four handles, in the order they are handed to the oracle. *)
Definition cts_of (r : BatchAggregatedResults) : list bytes32 :=
  [ FHE_toBytes32 (totalValueSumEncrypted r);
    FHE_toBytes32 (riskPreferenceSumEncrypted r);
    FHE_toBytes32 (rebalanceAmount1Encrypted r);
    FHE_toBytes32 (rebalanceAmount2Encrypted r) ].

(** [FHE.requestDecryption]: the id is the one the oracle issues. *)
Definition FHE_requestDecryption (cts : list bytes32) : M uint256 :=
  ask oracle_requestId.

Definition requestBatchDecryption (batchId : uint256) : M unit :=
  onlyOwner (whenNotPaused (
    let* closed := gets (fun s => batchClosed_at s batchId) in
    when (negb closed) (revert BatchClosedOrInvalid) ;;
    let* sender := ask msg_sender in
    let* now := ask block_timestamp in
    let* last := gets (fun s => lastDecryptionRequestTime_at s sender) in
    let* cooldown := gets cooldownSeconds in
    let* ready := checked_add last cooldown in
    when (now <? ready) (revert CooldownActive) ;;

    modify (fun s => set_lastDecryptionRequestTime
                       (<[sender := now]> (lastDecryptionRequestTime s)) s) ;;

    let* results := gets (fun s => batchResults_at s batchId) in
    _requireInitialized (totalValueSumEncrypted results)
      "Batch results not initialized" ;;

    let cts := cts_of results in
    let stateHash := keccak256_abi_encode cts address_this in
    let* requestId := FHE_requestDecryption cts in
    modify (fun s => set_decryptionContexts
                       (<[requestId := mkDecryptionContext batchId stateHash false]>
                          (decryptionContexts s)) s) ;;
    emit (DecryptionRequested requestId batchId))).

(** [abi.decode(cleartexts[lo:hi], (uint256))] *)
Definition decode_word (cleartexts : bytes) (lo hi : nat) : M uint256 :=
  match slice cleartexts lo hi with
  | Some w => ret (abi_decode_uint256 w)
  | None => revert SliceOutOfBounds
  end.

Definition myCallback (requestId : uint256) (cleartexts proof : bytes) : M unit :=
  let* done := gets (fun s => processed (decryptionContexts_at s requestId)) in
  when done (revert ReplayAttempt) ;;

  let* context := gets (fun s => decryptionContexts_at s requestId) in
  let* results := gets (fun s => batchResults_at s (batchId context)) in
  _requireInitialized (totalValueSumEncrypted results)
    "Batch results not initialized during callback" ;;

  let currentCts := cts_of results in
  let currentStateHash := keccak256_abi_encode currentCts address_this in
  when (negb (currentStateHash =? stateHash context)) (revert StateMismatch) ;;

  when (negb (FHE_checkSignatures requestId cleartexts proof)) (revert InvalidProof) ;;

  let* totalValueSum := decode_word cleartexts 0 32 in
  let* riskPreferenceSum := decode_word cleartexts 32 64 in
  let* rebalanceAmount1 := decode_word cleartexts 64 96 in
  let* rebalanceAmount2 := decode_word cleartexts 96 128 in

  let context := mkDecryptionContext (batchId context) (stateHash context) true in
  modify (fun s => set_decryptionContexts
                     (<[requestId := context]> (decryptionContexts s)) s) ;;
  emit (DecryptionCompleted requestId (batchId context) totalValueSum
          riskPreferenceSum rebalanceAmount1 rebalanceAmount2).

(** ** Transactions

    The external entry points, and the substrate's atomicity: a call that
    reverts leaves the storage as it was and logs nothing. *)

Inductive Op : Type :=
| TransferOwnership (newOwner : address)
| AddProvider (provider : address)
| RemoveProvider (provider : address)
| SetPaused (_paused : bool)
| SetCooldownSeconds (newCooldownSeconds : uint256)
| OpenNewBatch
| CloseCurrentBatch
| SubmitPortfolioData (totalValue riskPreference targetAllocation1
    targetAllocation2 currentAllocation1 currentAllocation2 : euint32)
| RequestBatchDecryption (batchId : uint256)
| MyCallback (requestId : uint256) (cleartexts proof : bytes).

Definition dispatch (o : Op) : M unit :=
  match o with
  | TransferOwnership a => transferOwnership a
  | AddProvider a => addProvider a
  | RemoveProvider a => removeProvider a
  | SetPaused b => setPaused b
  | SetCooldownSeconds n => setCooldownSeconds n
  | OpenNewBatch => openNewBatch
  | CloseCurrentBatch => closeCurrentBatch
  | SubmitPortfolioData a b c d e f => submitPortfolioData a b c d e f
  | RequestBatchDecryption b => requestBatchDecryption b
  | MyCallback r c p => myCallback r c p
  end.

Record Call : Type := mkCall { call_env : Env; call_op : Op }.

(** The outcome of one call on storage [s]: the new storage and the
    events of the call, or the error it reverted with. *)
Definition call (m : M unit) (e : Env) (s : State) : Result (State * list Event) :=
  match m e s [] with
  | Ok (_, s', evs) => Ok (s', evs)
  | Revert err => Revert err
  end.

Definition exec (s : State) (c : Call) : Result (State * list Event) :=
  call (dispatch (call_op c)) (call_env c) s.

(** The storage after the call, committed or rolled back. *)
Definition step (s : State) (c : Call) : State :=
  match exec s c with
  | Ok (s', _) => s'
  | Revert _ => s
  end.

Definition emitted (s : State) (c : Call) : list Event :=
  match exec s c with
  | Ok (_, evs) => evs
  | Revert _ => []
  end.

(** A trace of calls, in the order the substrate accepts them. *)
Definition run (s : State) (tr : list Call) : State := fold_left step tr s.

Fixpoint run_events (s : State) (tr : list Call) : list Event :=
  match tr with
  | [] => []
  | c :: tr' => emitted s c ++ run_events (step s c) tr'
  end.

(** Deployment by [deployer]. *)
Definition deploy (deployer : address) : State :=
  match call constructor (mkEnv deployer 0 0) storage_zero with
  | Ok (s, _) => s
  | Revert _ => storage_zero
  end.

(** ** Derived notions used to state the properties *)

(** The accumulators a submission starts from: the stored ones, or four
    encrypted zeros when the first one was never initialized. *)
Definition seeded (r : BatchAggregatedResults) : BatchAggregatedResults :=
  if FHE_isInitialized (totalValueSumEncrypted r) then r
  else mkBatchAggregatedResults (FHE_asEuint32 0) (FHE_asEuint32 0)
                                (FHE_asEuint32 0) (FHE_asEuint32 0).

(** One submission folded into accumulators that are already seeded. *)
Definition accumulate (r : BatchAggregatedResults) (u : UserPortfolioState)
  : BatchAggregatedResults :=
  mkBatchAggregatedResults
    (FHE_add (totalValueSumEncrypted r) (totalValueEncrypted u))
    (FHE_add (riskPreferenceSumEncrypted r) (riskPreferenceEncrypted u))
    (FHE_add (rebalanceAmount1Encrypted r)
       (FHE_sub (targetAllocation1Encrypted u) (currentAllocation1Encrypted u)))
    (FHE_add (rebalanceAmount2Encrypted r)
       (FHE_sub (targetAllocation2Encrypted u) (currentAllocation2Encrypted u))).

Definition submission (u : UserPortfolioState) : Op :=
  SubmitPortfolioData (totalValueEncrypted u) (riskPreferenceEncrypted u)
    (targetAllocation1Encrypted u) (targetAllocation2Encrypted u)
    (currentAllocation1Encrypted u) (currentAllocation2Encrypted u).

(** The oracle issues request id [rid] to call [c]. *)
Definition reissues (rid : uint256) (c : Call) : bool :=
  match call_op c with
  | RequestBatchDecryption _ => oracle_requestId (call_env c) =? rid
  | _ => false
  end.

(** Submissions as they reach the contract: who sends what, and when. *)
Definition submissions (l : list (Env * UserPortfolioState)) : list Call :=
  map (fun p => mkCall (fst p) (submission (snd p))) l.

Definition is_ok {A} (r : Result A) : bool :=
  match r with Ok _ => true | Revert _ => false end.

Definition error_of {A} (r : Result A) : option Error :=
  match r with Ok _ => None | Revert e => Some e end.

(** Every call of the trace is accepted. *)
Fixpoint accepted (s : State) (tr : list Call) : bool :=
  match tr with
  | [] => true
  | c :: tr' => is_ok (exec s c) && accepted (step s c) tr'
  end.

End Functions.

(** What the claim assumes of the engine: its addition is commutative and
    associative, and a sum is an initialized handle. *)
Class AdditiveEngine (E : FHEVM) : Prop := {
  FHE_add_comm : forall a b : euint32, FHE_add a b = FHE_add b a;
  FHE_add_assoc : forall a b c : euint32,
      FHE_add (FHE_add a b) c = FHE_add a (FHE_add b c);
  FHE_add_initialized : forall a b : euint32, FHE_isInitialized (FHE_add a b) = true
}.

(** ** A small engine to run the contract on

    Handles carry their 32-bit plaintext above a tag bit, so that the
    zero handle is the uninitialized one; addition and subtraction wrap
    at 32 bits.  A proof is the checksum of the request id and the
    cleartexts. *)

Module Toy.

Definition val (h : Z) : Z := h mod 2 ^ 32.
Definition enc (v : Z) : Z := 2 ^ 32 + v mod 2 ^ 32.

Definition attest (requestId : Z) (cleartexts : bytes) : Z :=
  (requestId + abi_decode_uint256 cleartexts) mod 251.

#[export] Instance engine : FHEVM := {|
  euint32 := Z;
  euint32_default := 0;
  FHE_asEuint32 := enc;
  FHE_add := fun a b => enc (val a + val b);
  FHE_sub := fun a b => enc (val a - val b);
  FHE_isInitialized := fun h => negb (h =? 0);
  FHE_toBytes32 := fun h => h;
  FHE_checkSignatures := fun requestId cleartexts proof =>
    abi_decode_uint256 proof =? attest requestId cleartexts;
  keccak256_abi_encode := fun cts a =>
    fold_left (fun h c => (h * 65537 + c) mod 2 ^ 256) cts a;
  address_this := 4096
|}.

Definition byte_of_Z (v : Z) : byte :=
  match Byte.of_N (Z.to_N (v mod 256)) with Some b => b | None => x00 end.

(** The 32-byte big-endian word of [v]. *)
Definition word (v : Z) : bytes :=
  map (fun i => byte_of_Z (v / 256 ^ Z.of_nat (31 - i))) (seq 0 32).

(** The one-byte proof the oracle attaches to [cleartexts]. *)
Definition sign (requestId : Z) (cleartexts : bytes) : bytes :=
  [byte_of_Z (attest requestId cleartexts)].

Definition portfolio (tv rp t1 t2 c1 c2 : Z) : UserPortfolioState :=
  mkUserPortfolioState (enc tv) (enc rp) (enc t1) (enc t2) (enc c1) (enc c2).

Definition tx (sender now : Z) (o : Op) : Call := mkCall (mkEnv sender now 0) o.
Definition tx_id (sender now rid : Z) (o : Op) : Call := mkCall (mkEnv sender now rid) o.

(** The end-to-end scenario: address 1 deploys, submits
    [(100, 3, 50, 50, 40, 60)] at time 100, closes batch 1 and requests its
    decryption; the oracle issues request id 7. *)
Definition P : UserPortfolioState := portfolio 100 3 50 50 40 60.
Definition s_deployed : State := deploy 1.
Definition s_submitted : State := step s_deployed (tx 1 100 (submission P)).
Definition s_closed : State := step s_submitted (tx 1 101 CloseCurrentBatch).
Definition s_requested : State :=
  step s_closed (tx_id 1 102 7 (RequestBatchDecryption 1)).

(** The cleartexts [(100, 3, 10, -10)], the last one as a 32-bit word. *)
Definition cleartexts_ok : bytes :=
  word 100 ++ word 3 ++ word 10 ++ word (2 ^ 32 - 10).
Definition proof_ok : bytes := sign 7 cleartexts_ok.
Definition proof_bad : bytes := [x00].

Definition callback_ok (sender now : Z) : Call :=
  tx sender now (MyCallback 7 cleartexts_ok proof_ok).

Definition s_completed : State := step s_requested (callback_ok 999 200).

(** The same deployment after the owner has set the cooldown to the
    largest [uint256]. *)
Definition s_max_cooldown : State :=
  step s_submitted (tx 1 101 (SetCooldownSeconds MAX_UINT256)).

(** Three providers for the reordering runs. *)
Definition s_three : State :=
  run s_deployed [tx 1 10 (AddProvider 2); tx 1 11 (AddProvider 3)].
Definition Q : UserPortfolioState := portfolio 250 5 30 70 45 55.
Definition T : UserPortfolioState := portfolio 4000000000 1 10 90 20 80.

(** Batch 1 of [s_requested] with its first accumulator replaced after
    the request. *)
Definition s_tampered : State :=
  set_batchResults
    (<[1 := with_totalValueSumEncrypted (enc 101) (batchResults_at s_requested 1)]>
       (batchResults s_requested))
    s_requested.

End Toy.

(** ** Further notions: lifecycle, roles and the dashboard *)

Section MoreNotions.
Context {E : FHEVM}.

Definition _hashCiphertexts (cts : list bytes32) : bytes32 :=
  keccak256_abi_encode cts address_this.

(** The functions under [onlyOwner], and those under [whenNotPaused]. *)
Definition owner_only (o : Op) : bool :=
  match o with
  | SubmitPortfolioData _ _ _ _ _ _ | MyCallback _ _ _ => false
  | _ => true
  end.

Definition pausable (o : Op) : bool :=
  match o with
  | OpenNewBatch | CloseCurrentBatch | SubmitPortfolioData _ _ _ _ _ _
  | RequestBatchDecryption _ => true
  | _ => false
  end.

Definition is_openNewBatch (o : Op) : bool :=
  match o with OpenNewBatch => true | _ => false end.

Definition is_setCooldownSeconds (o : Op) : bool :=
  match o with SetCooldownSeconds _ => true | _ => false end.

(** The accepted [openNewBatch] calls of a trace. *)
Fixpoint opened (s : State) (tr : list Call) : nat :=
  match tr with
  | [] => 0
  | c :: tr' =>
      ((if is_openNewBatch (call_op c) && is_ok (exec s c) then 1 else 0)
       + opened (step s c) tr')%nat
  end.

(** Call [c] is a callback for request id [rid]. *)
Definition callback_for (rid : uint256) (c : Call) : bool :=
  match call_op c with
  | MyCallback r _ _ => r =? rid
  | _ => false
  end.

(** The event a function emits, by kind and argument. *)
Definition logs (o : Op) (ev : Event) : bool :=
  match o, ev with
  | TransferOwnership n, OwnershipTransferred _ n' => n =? n'
  | AddProvider p, ProviderAdded p' => p =? p'
  | RemoveProvider p, ProviderRemoved p' => p =? p'
  | SetPaused true, ContractPaused _ => true
  | SetPaused false, ContractUnpaused _ => true
  | SetCooldownSeconds n, CooldownSecondsSet _ n' => n =? n'
  | OpenNewBatch, BatchOpened _ => true
  | CloseCurrentBatch, BatchClosed _ => true
  | SubmitPortfolioData _ _ _ _ _ _, PortfolioDataSubmitted _ _ => true
  | RequestBatchDecryption b, DecryptionRequested _ b' => b =? b'
  | MyCallback r _ _, DecryptionCompleted r' _ _ _ _ _ => r =? r'
  | _, _ => false
  end.

(** Batch ids in use are [1 .. currentBatchId]; outside that range
    nothing was ever closed or aggregated. *)
Definition lifecycle_ok (s : State) : Prop :=
  1 <= currentBatchId s
  /\ forall b, b < 1 \/ currentBatchId s < b ->
       batchClosed s !! b = None /\ batchResults s !! b = None.

(** Every stored decryption context targets a closed batch whose
    accumulators are initialized and hash to the stored hash. *)
Definition bindings_ok (s : State) : Prop :=
  forall rid ctx,
    decryptionContexts s !! rid = Some ctx ->
    batchClosed_at s (batchId ctx) = true
    /\ FHE_isInitialized (totalValueSumEncrypted (batchResults_at s (batchId ctx))) = true
    /\ _hashCiphertexts (cts_of (batchResults_at s (batchId ctx))) = stateHash ctx.

End MoreNotions.

(** ** The dashboard

    The pure parts of the React component [App]: the notification list
    and the derived lists and counts over the loaded portfolios.  The
    string methods of the host ([toLowerCase], [includes]) and the clock
    are inputs. *)

Module Dashboard.

Record PortfolioRecord : Type := mkPortfolioRecord {
  id : string;
  encryptedBalance : string;
  encryptedAPY : string;
  timestamp : Z;
  protocol : string;
  asset : string;
  status : string
}.

(** [addNotification(message)] as the update it passes to
    [setNotifications]; [time] is [new Date().toLocaleTimeString()]. *)
Definition addNotification (time message : string) (prev : list string) : list string :=
  ("[" ++ time ++ "] " ++ message)%string :: firstn 9 prev.

(** The notifications after a series of [addNotification] calls, each
    with the time it was made at. *)
Definition notify (calls : list (string * string)) (prev : list string) : list string :=
  fold_left (fun l c => addNotification (fst c) (snd c) l) calls prev.

Definition activeCount (portfolios : list PortfolioRecord) : nat :=
  length (List.filter (fun p => String.eqb (status p) "active") portfolios).

Definition inactiveCount (portfolios : list PortfolioRecord) : nat :=
  length (List.filter (fun p => String.eqb (status p) "inactive") portfolios).

Section Filter.
Variable toLowerCase : string -> string.
Variable includes : string -> string -> bool.

Definition filteredPortfolios (searchTerm activeFilter : string)
  (portfolios : list PortfolioRecord) : list PortfolioRecord :=
  List.filter (fun portfolio =>
    let matchesSearch :=
      includes (toLowerCase (protocol portfolio)) (toLowerCase searchTerm)
      || includes (toLowerCase (asset portfolio)) (toLowerCase searchTerm) in
    let matchesFilter :=
      String.eqb activeFilter "all"
      || (String.eqb activeFilter "active" && String.eqb (status portfolio) "active")
      || (String.eqb activeFilter "inactive" && String.eqb (status portfolio) "inactive") in
    matchesSearch && matchesFilter) portfolios.

End Filter.

End Dashboard.

(** ** What each entry point computes

    One equation per function: the guards in the order the code tests
    them, and the storage and event of a call that passes them all. *)

Section Equations.
Context {E : FHEVM}.

Ltac unfold_sol :=
  unfold exec, call, dispatch, transferOwnership, addProvider, removeProvider,
    setPaused, setCooldownSeconds, openNewBatch, closeCurrentBatch,
    requestBatchDecryption, myCallback, onlyOwner, onlyProvider, whenNotPaused,
    checked_add, decode_word, _requireInitialized, FHE_requestDecryption,
    write_state, write_results, read_results,
    when, bind, ret, revert, ask, gets, modify, emit; simpl.

Lemma transferOwnership_eq (s : State) (env : Env) (newOwner : address) :
  exec s (mkCall env (TransferOwnership newOwner)) =
  if negb (msg_sender env =? owner s) then Revert NotOwner
  else Ok (set_owner newOwner s, [OwnershipTransferred (owner s) newOwner]).
Proof. unfold_sol. now destruct (msg_sender env =? owner s). Qed.

Lemma addProvider_eq (s : State) (env : Env) (provider : address) :
  exec s (mkCall env (AddProvider provider)) =
  if negb (msg_sender env =? owner s) then Revert NotOwner
  else Ok (set_providers (<[provider := true]> (providers s)) s, [ProviderAdded provider]).
Proof. unfold_sol. now destruct (msg_sender env =? owner s). Qed.

Lemma removeProvider_eq (s : State) (env : Env) (provider : address) :
  exec s (mkCall env (RemoveProvider provider)) =
  if negb (msg_sender env =? owner s) then Revert NotOwner
  else Ok (set_providers (<[provider := false]> (providers s)) s, [ProviderRemoved provider]).
Proof. unfold_sol. now destruct (msg_sender env =? owner s). Qed.

Lemma setPaused_eq (s : State) (env : Env) (_paused : bool) :
  exec s (mkCall env (SetPaused _paused)) =
  if negb (msg_sender env =? owner s) then Revert NotOwner
  else Ok (set_paused _paused s,
           [if _paused then ContractPaused (msg_sender env)
            else ContractUnpaused (msg_sender env)]).
Proof. unfold_sol. now destruct (msg_sender env =? owner s), _paused. Qed.

Lemma setCooldownSeconds_eq (s : State) (env : Env) (n : uint256) :
  exec s (mkCall env (SetCooldownSeconds n)) =
  if negb (msg_sender env =? owner s) then Revert NotOwner
  else Ok (set_cooldownSeconds n s, [CooldownSecondsSet (cooldownSeconds s) n]).
Proof. unfold_sol. now destruct (msg_sender env =? owner s). Qed.

Lemma openNewBatch_eq (s : State) (env : Env) :
  exec s (mkCall env OpenNewBatch) =
  if negb (msg_sender env =? owner s) then Revert NotOwner
  else if paused s then Revert Paused
  else if currentBatchId s + 1 <=? MAX_UINT256
       then Ok (set_currentBatchId (currentBatchId s + 1) s,
                [BatchOpened (currentBatchId s + 1)])
       else Revert ArithmeticPanic.
Proof.
  unfold_sol. destruct (msg_sender env =? owner s); simpl; [|reflexivity].
  destruct (paused s); [reflexivity|].
  now destruct (currentBatchId s + 1 <=? MAX_UINT256).
Qed.

Lemma closeCurrentBatch_eq (s : State) (env : Env) :
  exec s (mkCall env CloseCurrentBatch) =
  if negb (msg_sender env =? owner s) then Revert NotOwner
  else if paused s then Revert Paused
  else if (currentBatchId s =? 0) || batchClosed_at s (currentBatchId s)
       then Revert BatchClosedOrInvalid
       else Ok (set_batchClosed (<[currentBatchId s := true]> (batchClosed s)) s,
                [BatchClosed (currentBatchId s)]).
Proof.
  unfold_sol. destruct (msg_sender env =? owner s); simpl; [|reflexivity].
  destruct (paused s); [reflexivity|].
  now destruct ((currentBatchId s =? 0) || batchClosed_at s (currentBatchId s)).
Qed.

Lemma requestBatchDecryption_eq (s : State) (env : Env) (b : uint256) :
  exec s (mkCall env (RequestBatchDecryption b)) =
  let sender := msg_sender env in
  let last := lastDecryptionRequestTime_at s sender in
  let results := batchResults_at s b in
  if negb (sender =? owner s) then Revert NotOwner
  else if paused s then Revert Paused
  else if negb (batchClosed_at s b) then Revert BatchClosedOrInvalid
  else if negb (last + cooldownSeconds s <=? MAX_UINT256) then Revert ArithmeticPanic
  else if block_timestamp env <? last + cooldownSeconds s then Revert CooldownActive
  else if negb (FHE_isInitialized (totalValueSumEncrypted results))
       then Revert NotInitialized
  else Ok (set_decryptionContexts
             (<[oracle_requestId env :=
                  mkDecryptionContext b
                    (keccak256_abi_encode (cts_of results) address_this) false]>
                (decryptionContexts s))
             (set_lastDecryptionRequestTime
                (<[sender := block_timestamp env]> (lastDecryptionRequestTime s)) s),
           [DecryptionRequested (oracle_requestId env) b]).
Proof.
  unfold_sol. destruct (msg_sender env =? owner s); simpl; [|reflexivity].
  destruct (paused s); [reflexivity|].
  destruct (batchClosed_at s b); simpl; [|reflexivity].
  destruct (_ <=? MAX_UINT256); simpl; [|reflexivity].
  destruct (block_timestamp env <? _); simpl; [reflexivity|].
  unfold batchResults_at at 1 2. simpl.
  now destruct (FHE_isInitialized _).
Qed.

Lemma myCallback_eq (s : State) (env : Env) (rid : uint256) (ct pf : bytes) :
  exec s (mkCall env (MyCallback rid ct pf)) =
  let context := decryptionContexts_at s rid in
  let results := batchResults_at s (batchId context) in
  if processed context then Revert ReplayAttempt
  else if negb (FHE_isInitialized (totalValueSumEncrypted results))
       then Revert NotInitialized
  else if negb (keccak256_abi_encode (cts_of results) address_this =? stateHash context)
       then Revert StateMismatch
  else if negb (FHE_checkSignatures rid ct pf) then Revert InvalidProof
  else match slice ct 0 32, slice ct 32 64, slice ct 64 96, slice ct 96 128 with
       | Some w0, Some w1, Some w2, Some w3 =>
           Ok (set_decryptionContexts
                 (<[rid := mkDecryptionContext (batchId context) (stateHash context) true]>
                    (decryptionContexts s)) s,
               [DecryptionCompleted rid (batchId context)
                  (abi_decode_uint256 w0) (abi_decode_uint256 w1)
                  (abi_decode_uint256 w2) (abi_decode_uint256 w3)])
       | _, _, _, _ => Revert SliceOutOfBounds
       end.
Proof.
  unfold_sol. destruct (processed _); [reflexivity|].
  destruct (FHE_isInitialized _); simpl; [|reflexivity].
  destruct (_ =? stateHash _); simpl; [|reflexivity].
  destruct (FHE_checkSignatures rid ct pf); simpl; [|reflexivity].
  destruct (slice ct 0 32); [|reflexivity].
  destruct (slice ct 32 64); [|reflexivity].
  destruct (slice ct 64 96); [|reflexivity].
  now destruct (slice ct 96 128).
Qed.

End Equations.

(** ** The submission path *)

Section Submission.
Context {E : FHEVM}.

(** Stepping through the writes of a call, one at a time. *)
Lemma bind_write_results {A} (b : uint256)
  (f : BatchAggregatedResults -> BatchAggregatedResults) (k : unit -> M A) e s l :
  bind (write_results b f) k e s l =
  k tt e (set_batchResults (<[b := f (batchResults_at s b)]> (batchResults s)) s) l.
Proof. reflexivity. Qed.

Lemma bind_read_results {A B} (b : uint256) (f : BatchAggregatedResults -> A)
  (k : A -> M B) e s l :
  bind (read_results b f) k e s l = k (f (batchResults_at s b)) e s l.
Proof. reflexivity. Qed.

Lemma bind_write_state {A} (a : address)
  (f : UserPortfolioState -> UserPortfolioState) (k : unit -> M A) e s l :
  bind (write_state a f) k e s l =
  k tt e (set_userStates (<[a := f (userStates_at s a)]> (userStates s)) s) l.
Proof. reflexivity. Qed.

Lemma batchResults_written (b : uint256) (v : BatchAggregatedResults) m (s : State) :
  batchResults_at (set_batchResults (<[b := v]> m) s) b = v.
Proof. unfold batchResults_at. simpl. now rewrite lookup_insert_eq. Qed.

Lemma userStates_written (a : address) (v : UserPortfolioState) m (s : State) :
  userStates_at (set_userStates (<[a := v]> m) s) a = v.
Proof. unfold userStates_at. simpl. now rewrite lookup_insert_eq. Qed.

Lemma set_batchResults_twice m m' (s : State) :
  set_batchResults m (set_batchResults m' s) = set_batchResults m s.
Proof. reflexivity. Qed.

Lemma set_userStates_twice m m' (s : State) :
  set_userStates m (set_userStates m' s) = set_userStates m s.
Proof. reflexivity. Qed.

Lemma batchResults_set m (s : State) : batchResults (set_batchResults m s) = m.
Proof. reflexivity. Qed.

Lemma userStates_set m (s : State) : userStates (set_userStates m s) = m.
Proof. reflexivity. Qed.

Lemma bind_ret {A B} (a : A) (k : A -> M B) e s l : bind (ret a) k e s l = k a e s l.
Proof. reflexivity. Qed.

Lemma bind_gets {A B} (f : State -> A) (k : A -> M B) e s l :
  bind (gets f) k e s l = k (f s) e s l.
Proof. reflexivity. Qed.

Lemma bind_ask {A B} (f : Env -> A) (k : A -> M B) e s l :
  bind (ask f) k e s l = k (f e) e s l.
Proof. reflexivity. Qed.

Lemma bind_modify {A} (f : State -> State) (k : unit -> M A) e s l :
  bind (modify f) k e s l = k tt e (f s) l.
Proof. reflexivity. Qed.

Lemma bind_revert {A B} (err : Error) (k : A -> M B) e s l :
  bind (revert err) k e s l = Revert err.
Proof. reflexivity. Qed.

Lemma bind_bind {A B C} (m : M A) (k1 : A -> M B) (k2 : B -> M C) e s l :
  bind (bind m k1) k2 e s l = bind m (fun x => bind (k1 x) k2) e s l.
Proof. unfold bind. destruct (m e s l) as [[[a s'] l']|err]; reflexivity. Qed.

Lemma batchResults_at_set_userStates m (s : State) b :
  batchResults_at (set_userStates m s) b = batchResults_at s b.
Proof. reflexivity. Qed.

Lemma batchResults_at_set_lastSubmissionTime m (s : State) b :
  batchResults_at (set_lastSubmissionTime m s) b = batchResults_at s b.
Proof. reflexivity. Qed.

Lemma userStates_at_set_lastSubmissionTime m (s : State) a :
  userStates_at (set_lastSubmissionTime m s) a = userStates_at s a.
Proof. reflexivity. Qed.

Lemma submitPortfolioData_eq (s : State) (env : Env) (tv rp t1 t2 c1 c2 : euint32) :
  exec s (mkCall env (SubmitPortfolioData tv rp t1 t2 c1 c2)) =
  let sender := msg_sender env in
  let last := lastSubmissionTime_at s sender in
  let cur := currentBatchId s in
  let u := mkUserPortfolioState tv rp t1 t2 c1 c2 in
  if negb (providers_at s sender) then Revert NotProvider
  else if paused s then Revert Paused
  else if negb (last + cooldownSeconds s <=? MAX_UINT256) then Revert ArithmeticPanic
  else if block_timestamp env <? last + cooldownSeconds s then Revert CooldownActive
  else if batchClosed_at s cur then Revert BatchClosedOrInvalid
  else Ok (set_batchResults
             (<[cur := accumulate (seeded (batchResults_at s cur)) u]> (batchResults s))
             (set_userStates (<[sender := u]> (userStates s))
                (set_lastSubmissionTime
                   (<[sender := block_timestamp env]> (lastSubmissionTime s)) s)),
           [PortfolioDataSubmitted sender cur]).
Proof.
  unfold exec, call. cbn [call_op call_env dispatch].
  unfold submitPortfolioData, onlyProvider, whenNotPaused, checked_add.
  rewrite bind_ask, bind_gets.
  destruct (providers_at s (msg_sender env)); cbn [negb]; [|reflexivity].
  rewrite bind_gets. destruct (paused s); [reflexivity|].
  rewrite bind_ask, bind_ask, bind_gets, bind_gets. cbv zeta.
  destruct (_ <=? MAX_UINT256); cbn [negb]; [|reflexivity].
  rewrite bind_ret.
  destruct (block_timestamp env <? _); unfold when at 1; [reflexivity|].
  rewrite bind_ret, bind_gets, bind_gets.
  destruct (batchClosed_at s (currentBatchId s)); unfold when at 1; [reflexivity|].
  rewrite bind_ret, bind_modify.
  rewrite bind_write_state, userStates_at_set_lastSubmissionTime.
  do 5 (rewrite bind_write_state, userStates_written, userStates_set,
          insert_insert_eq, set_userStates_twice).
  cbn [userStates set_lastSubmissionTime].
  rewrite bind_read_results.
  rewrite batchResults_at_set_userStates, batchResults_at_set_lastSubmissionTime.
  unfold seeded.
  destruct (FHE_isInitialized
              (totalValueSumEncrypted (batchResults_at s (currentBatchId s))));
    cbn [negb]; unfold when at 1.
  - rewrite bind_ret.
    rewrite bind_read_results, bind_write_results.
    rewrite !batchResults_at_set_userStates, !batchResults_at_set_lastSubmissionTime.
    do 2 (rewrite bind_read_results, batchResults_written, bind_write_results,
            batchResults_written, batchResults_set, insert_insert_eq,
            set_batchResults_twice).
    rewrite bind_read_results, batchResults_written.
    rewrite bind_write_results, batchResults_written, batchResults_set,
      insert_insert_eq, set_batchResults_twice.
    reflexivity.
  - rewrite bind_bind, bind_write_results; cbv beta.
    rewrite !batchResults_at_set_userStates, !batchResults_at_set_lastSubmissionTime.
    do 2 (rewrite bind_bind, bind_write_results, batchResults_written,
            batchResults_set, insert_insert_eq, set_batchResults_twice; cbv beta).
    rewrite bind_write_results, batchResults_written, batchResults_set,
      insert_insert_eq, set_batchResults_twice.
    do 4 (rewrite bind_read_results, batchResults_written, bind_write_results,
            batchResults_written, batchResults_set, insert_insert_eq,
            set_batchResults_twice).
    reflexivity.
Qed.

(** What an accepted submission leaves in the accumulators. *)
Lemma submitPortfolioData_accepted
  (s : State) (env : Env) (tv rp t1 t2 c1 c2 : euint32)
  (s' : State) (evs : list Event) :
  exec s (mkCall env (SubmitPortfolioData tv rp t1 t2 c1 c2)) = Ok (s', evs) ->
  batchResults_at s' (currentBatchId s) =
    accumulate (seeded (batchResults_at s (currentBatchId s)))
               (mkUserPortfolioState tv rp t1 t2 c1 c2)
  /\ (forall b, b <> currentBatchId s -> batchResults_at s' b = batchResults_at s b)
  /\ currentBatchId s' = currentBatchId s.
Proof.
  rewrite submitPortfolioData_eq. cbv zeta.
  repeat match goal with
         | |- (if ?b then _ else _) = _ -> _ => destruct b; [discriminate|]
         end.
  intros Hok. inversion Hok; subst. unfold batchResults_at. simpl.
  split; [|split].
  - now rewrite lookup_insert_eq.
  - intros b Hb. now rewrite lookup_insert_ne.
  - reflexivity.
Qed.

End Submission.

(** ** Traces: what a call can and cannot touch *)

Section Frames.
Context {E : FHEVM}.

Ltac by_equation :=
  first [ rewrite transferOwnership_eq | rewrite addProvider_eq
        | rewrite removeProvider_eq | rewrite setPaused_eq
        | rewrite setCooldownSeconds_eq | rewrite openNewBatch_eq
        | rewrite closeCurrentBatch_eq | rewrite submitPortfolioData_eq
        | rewrite requestBatchDecryption_eq | rewrite myCallback_eq ].

Ltac split_ifs :=
  repeat match goal with
         | |- context [if ?b then _ else _] => destruct b eqn:?
         | |- context [match slice ?c ?a ?b with _ => _ end] => destruct (slice c a b)
         end.

Lemma run_app (s : State) (tr1 tr2 : list Call) :
  run s (tr1 ++ tr2) = run (run s tr1) tr2.
Proof. apply fold_left_app. Qed.

Lemma run_cons (s : State) (c : Call) (tr : list Call) :
  run s (c :: tr) = run (step s c) tr.
Proof. reflexivity. Qed.

Lemma step_revert (s : State) (c : Call) (err : Error) :
  exec s c = Revert err -> step s c = s /\ emitted s c = [].
Proof. unfold step, emitted. now intros ->. Qed.

Lemma step_ok (s : State) (c : Call) (s' : State) (evs : list Event) :
  exec s c = Ok (s', evs) -> step s c = s' /\ emitted s c = evs.
Proof. unfold step, emitted. now intros ->. Qed.

Lemma exec_accepted (s : State) (c : Call) :
  is_ok (exec s c) = true -> exec s c = Ok (step s c, emitted s c).
Proof. unfold step, emitted. now destruct (exec s c) as [[s' evs]|err]. Qed.

Lemma exec_reverted (s : State) (c : Call) (err : Error) :
  error_of (exec s c) = Some err -> exec s c = Revert err.
Proof. destruct (exec s c) as [[s' evs]|e]; simpl; congruence. Qed.

(** A closed batch stays closed and keeps its accumulators. *)
Lemma step_closed_batch (s : State) (c : Call) (R : uint256) :
  batchClosed_at s R = true ->
  batchClosed_at (step s c) R = true /\
  batchResults_at (step s c) R = batchResults_at s R.
Proof.
  intros HR. destruct c as [env op]. unfold step.
  destruct op; by_equation; cbv zeta; split_ifs; simpl; auto.
  - (* closeCurrentBatch *)
    split; [|reflexivity]. unfold batchClosed_at in *. simpl.
    destruct (decide (currentBatchId s = R)) as [->|Hne].
    + now rewrite lookup_insert_eq.
    + now rewrite lookup_insert_ne.
  - (* submitPortfolioData *)
    split; [exact HR|]. unfold batchResults_at. simpl.
    rewrite lookup_insert_ne; [reflexivity|]. congruence.
Qed.

Lemma run_closed_batch (tr : list Call) (s : State) (R : uint256) :
  batchClosed_at s R = true ->
  batchClosed_at (run s tr) R = true /\
  batchResults_at (run s tr) R = batchResults_at s R.
Proof.
  revert s. induction tr as [|c tr IH]; intros s HR; [now split|].
  rewrite run_cons.
  destruct (step_closed_batch s c R HR) as [Hc Hr].
  destruct (IH (step s c) Hc) as [Hc' Hr'].
  split; [exact Hc'|congruence].
Qed.

(** A processed context is never written again, unless the oracle hands
    its request id out a second time. *)
Lemma step_processed (s : State) (c : Call) (rid : uint256) :
  processed (decryptionContexts_at s rid) = true ->
  reissues rid c = false ->
  decryptionContexts_at (step s c) rid = decryptionContexts_at s rid.
Proof.
  intros Hp Hc. destruct c as [env op]. unfold step, reissues in *. simpl in Hc.
  destruct op; by_equation; cbv zeta; split_ifs; simpl; auto.
  - (* requestBatchDecryption *)
    unfold decryptionContexts_at. simpl.
    rewrite lookup_insert_ne; [reflexivity|]. lia.
  - (* myCallback *)
    unfold decryptionContexts_at in *. simpl.
    rewrite lookup_insert_ne; [reflexivity|]. congruence.
Qed.

Lemma emitted_completed (s : State) (c : Call) (rid b v1 v2 v3 v4 : uint256) :
  In (DecryptionCompleted rid b v1 v2 v3 v4) (emitted s c) ->
  processed (decryptionContexts_at s rid) = false.
Proof.
  destruct c as [env op]. unfold emitted.
  destruct op; by_equation; cbv zeta; split_ifs; simpl;
    try tauto; intros [H|[]]; try discriminate.
  now inversion H; subst.
Qed.

Lemma run_processed (tr : list Call) (s : State) (rid : uint256) :
  processed (decryptionContexts_at s rid) = true ->
  Forall (fun c => reissues rid c = false) tr ->
  decryptionContexts_at (run s tr) rid = decryptionContexts_at s rid /\
  (forall b v1 v2 v3 v4,
      ~ In (DecryptionCompleted rid b v1 v2 v3 v4) (run_events s tr)).
Proof.
  revert s. induction tr as [|c tr IH]; intros s Hp Hfresh.
  - split; [reflexivity|]. intros ? ? ? ? ? [].
  - inversion Hfresh as [|? ? Hc Htr]; subst.
    pose proof (step_processed s c rid Hp Hc) as Hstep.
    rewrite run_cons. simpl.
    destruct (IH (step s c)) as [Hctx Hev]; [congruence|exact Htr|].
    split; [congruence|].
    intros b v1 v2 v3 v4 Hin. apply in_app_or in Hin as [Hin|Hin].
    + apply emitted_completed in Hin. congruence.
    + exact (Hev _ _ _ _ _ Hin).
Qed.

End Frames.

(** ** The decryption callback *)

Section Callback.
Context {E : FHEVM}.

(** C1. Once [myCallback] has succeeded for a request id, the context of
    that id is marked processed (it was not before), and from then on,
    whatever calls follow, as long as the oracle does not hand the same id
    out to a new request: the stored context stays as the callback left
    it, every further [myCallback] for the id reverts with
    [ReplayAttempt], changing nothing and logging nothing, and no second
    [DecryptionCompleted] for the id is ever emitted. *)
Theorem replay_guard_consumes_once
  (s : State) (env : Env) (rid : uint256) (ct pf : bytes)
  (s1 : State) (evs : list Event) (tr : list Call) :
  exec s (mkCall env (MyCallback rid ct pf)) = Ok (s1, evs) ->
  Forall (fun c => reissues rid c = false) tr ->
  processed (decryptionContexts_at s rid) = false
  /\ processed (decryptionContexts_at s1 rid) = true
  /\ decryptionContexts_at (run s1 tr) rid = decryptionContexts_at s1 rid
  /\ (forall env' ct' pf',
        exec (run s1 tr) (mkCall env' (MyCallback rid ct' pf')) = Revert ReplayAttempt
        /\ step (run s1 tr) (mkCall env' (MyCallback rid ct' pf')) = run s1 tr
        /\ emitted (run s1 tr) (mkCall env' (MyCallback rid ct' pf')) = [])
  /\ (forall b v1 v2 v3 v4,
        ~ In (DecryptionCompleted rid b v1 v2 v3 v4) (run_events s1 tr)).
Proof.
  intros Hok Hfresh.
  assert (Hbefore : processed (decryptionContexts_at s rid) = false).
  { rewrite myCallback_eq in Hok. cbv zeta in Hok.
    now destruct (processed (decryptionContexts_at s rid)). }
  assert (Hafter : processed (decryptionContexts_at s1 rid) = true).
  { rewrite myCallback_eq in Hok. cbv zeta in Hok. rewrite Hbefore in Hok.
    repeat match type of Hok with
           | (if ?b then _ else _) = _ => destruct b; [discriminate|]
           | match slice ?c ?a ?b with _ => _ end = _ =>
               destruct (slice c a b); [|discriminate]
           end.
    inversion Hok; subst. unfold decryptionContexts_at. simpl.
    now rewrite lookup_insert_eq. }
  destruct (run_processed tr s1 rid Hafter Hfresh) as [Hctx Hev].
  repeat split; auto.
  - rewrite myCallback_eq. cbv zeta. now rewrite Hctx, Hafter.
  - apply (step_revert _ _ ReplayAttempt).
    rewrite myCallback_eq. cbv zeta. now rewrite Hctx, Hafter.
  - apply (step_revert _ _ ReplayAttempt).
    rewrite myCallback_eq. cbv zeta. now rewrite Hctx, Hafter.
Qed.

(** C2. [myCallback] publishes only when the hash recomputed from the
    target batch's current four accumulators and the contract's address
    equals the hash stored with the request; when the two differ the call
    reverts, nothing is written and nothing is logged, and for a request
    that reaches the check (not yet processed, accumulators initialized)
    the error is [StateMismatch]. *)
Theorem state_binding_check
  (s : State) (env : Env) (rid : uint256) (ct pf : bytes) :
  let context := decryptionContexts_at s rid in
  let recomputed :=
    keccak256_abi_encode (cts_of (batchResults_at s (batchId context))) address_this in
  let c := mkCall env (MyCallback rid ct pf) in
  (forall s' evs, exec s c = Ok (s', evs) -> recomputed = stateHash context)
  /\ (recomputed <> stateHash context ->
      (exists err, exec s c = Revert err) /\ step s c = s /\ emitted s c = [])
  /\ (processed context = false ->
      FHE_isInitialized
        (totalValueSumEncrypted (batchResults_at s (batchId context))) = true ->
      recomputed <> stateHash context ->
      exec s c = Revert StateMismatch).
Proof.
  cbv zeta. split; [|split].
  - intros s' evs. rewrite myCallback_eq. cbv zeta.
    destruct (processed _); [discriminate|].
    destruct (FHE_isInitialized _); [|discriminate]. simpl.
    destruct (Z.eqb_spec
                (keccak256_abi_encode
                   (cts_of (batchResults_at s (batchId (decryptionContexts_at s rid))))
                   address_this)
                (stateHash (decryptionContexts_at s rid))); [auto|discriminate].
  - intros Hne.
    assert (Hrev : exists err, exec s (mkCall env (MyCallback rid ct pf)) = Revert err).
    { rewrite myCallback_eq. cbv zeta.
      destruct (processed _); [eauto|].
      destruct (FHE_isInitialized _); [|eauto]. simpl.
      apply Z.eqb_neq in Hne. rewrite Hne. simpl. eauto. }
    destruct Hrev as [err Hrev]. split; [eauto|]. exact (step_revert _ _ _ Hrev).
  - intros Hp Hi Hne. rewrite myCallback_eq. cbv zeta.
    rewrite Hp, Hi. simpl. apply Z.eqb_neq in Hne. now rewrite Hne.
Qed.

End Callback.

(** ** Aggregation *)

Section Aggregation.
Context {E : FHEVM}.

(** C3. An accepted submission into the current batch [R] first seeds the
    four accumulators of [R] with encrypted zero when they do not exist yet
    (the first one is not initialized), then adds [totalValue],
    [riskPreference], [targetAllocation1 - currentAllocation1] and
    [targetAllocation2 - currentAllocation2] to them with the engine's
    [add] and [sub]; the accumulators of every other batch are untouched. *)
Theorem submission_aggregates
  (s : State) (env : Env) (tv rp t1 t2 c1 c2 : euint32)
  (s' : State) (evs : list Event) :
  exec s (mkCall env (SubmitPortfolioData tv rp t1 t2 c1 c2)) = Ok (s', evs) ->
  let R := currentBatchId s in
  let old := batchResults_at s R in
  let zero := FHE_asEuint32 0 in
  let start :=
    if FHE_isInitialized (totalValueSumEncrypted old) then old
    else mkBatchAggregatedResults zero zero zero zero in
  batchResults_at s' R =
    mkBatchAggregatedResults
      (FHE_add (totalValueSumEncrypted start) tv)
      (FHE_add (riskPreferenceSumEncrypted start) rp)
      (FHE_add (rebalanceAmount1Encrypted start) (FHE_sub t1 c1))
      (FHE_add (rebalanceAmount2Encrypted start) (FHE_sub t2 c2))
  /\ (forall b, b <> R -> batchResults_at s' b = batchResults_at s b)
  /\ currentBatchId s' = R.
Proof.
  intros Hok. cbv zeta.
  destruct (submitPortfolioData_accepted s env tv rp t1 t2 c1 c2 s' evs Hok)
    as (Hres & Hframe & Hcur).
  split; [|split; [exact Hframe|exact Hcur]].
  rewrite Hres. unfold accumulate, seeded. simpl.
  now destruct (FHE_isInitialized
                  (totalValueSumEncrypted (batchResults_at s (currentBatchId s)))).
Qed.

End Aggregation.

(** ** Batch lifecycle *)

Section Lifecycle.
Context {E : FHEVM}.

(** C4. Once [closeCurrentBatch] has succeeded for batch [R], whatever
    calls follow, [R] stays closed and its four accumulators keep the
    values they had at the close.  A submission attempted while the
    current batch is closed reverts and changes nothing; when the caller
    passes the gates tested before (provider, not paused, cooldown
    elapsed) the error is [BatchClosedOrInvalid]. *)
Theorem closed_batch_is_final
  (s : State) (env : Env) (s1 : State) (evs : list Event) (tr : list Call) :
  exec s (mkCall env CloseCurrentBatch) = Ok (s1, evs) ->
  let R := currentBatchId s in
  batchClosed_at (run s1 tr) R = true
  /\ batchResults_at (run s1 tr) R = batchResults_at s R
  /\ (forall (s2 : State) (env' : Env) (tv rp t1 t2 c1 c2 : euint32),
        let c := mkCall env' (SubmitPortfolioData tv rp t1 t2 c1 c2) in
        batchClosed_at s2 (currentBatchId s2) = true ->
        (exists err, exec s2 c = Revert err)
        /\ step s2 c = s2
        /\ (providers_at s2 (msg_sender env') = true ->
            paused s2 = false ->
            block_timestamp env' <= MAX_UINT256 ->
            lastSubmissionTime_at s2 (msg_sender env') + cooldownSeconds s2
              <= block_timestamp env' ->
            exec s2 c = Revert BatchClosedOrInvalid)).
Proof.
  intros Hok R.
  assert (Hs1 : batchClosed_at s1 R = true /\ batchResults_at s1 R = batchResults_at s R).
  { rewrite closeCurrentBatch_eq in Hok.
    repeat match type of Hok with
           | (if ?b then _ else _) = _ => destruct b; [discriminate|]
           end.
    inversion Hok; subst. unfold batchClosed_at, batchResults_at. simpl.
    now rewrite lookup_insert_eq. }
  destruct Hs1 as [Hc Hr].
  destruct (run_closed_batch tr s1 R Hc) as [Hc' Hr'].
  split; [exact Hc'|]. split; [congruence|].
  intros s2 env' tv rp t1 t2 c1 c2 c Hclosed.
  assert (Hrev : exists err, exec s2 c = Revert err).
  { unfold c. rewrite submitPortfolioData_eq. cbv zeta. rewrite Hclosed.
    repeat match goal with
           | |- context [if ?b then _ else _] => destruct b; eauto
           end. }
  split; [exact Hrev|]. split.
  - destruct Hrev as [err Hrev]. exact (proj1 (step_revert _ _ _ Hrev)).
  - intros Hprov Hpause Hnow Hready. unfold c.
    rewrite submitPortfolioData_eq. cbv zeta. rewrite Hprov, Hpause, Hclosed. simpl.
    destruct (Z.leb_spec
                (lastSubmissionTime_at s2 (msg_sender env') + cooldownSeconds s2)
                MAX_UINT256); [|lia]. simpl.
    destruct (Z.ltb_spec (block_timestamp env')
                (lastSubmissionTime_at s2 (msg_sender env') + cooldownSeconds s2));
      [lia|reflexivity].
Qed.

End Lifecycle.

(** ** Access control and cooldowns *)

Section AccessControl.
Context {E : FHEVM}.

(** C5, as the code has it.  For a caller that passes the gates tested
    before the cooldown (provider and not paused for a submission; owner,
    not paused and a closed batch for a decryption request), and when
    [lastTime + cooldownSeconds] fits in 256 bits: the call reverts with
    [CooldownActive] exactly when [now < lastTime + cooldownSeconds], and a
    submission into an open batch is accepted as soon as
    [lastTime + cooldownSeconds <= now].  When the sum does not fit, the
    checked addition aborts the call with an arithmetic panic.  An accepted
    submission writes the caller's submission time only, an accepted
    request the caller's request time only. *)
Theorem cooldown_gate (s : State) (env : Env) :
  let a := msg_sender env in
  let now := block_timestamp env in
  (forall tv rp t1 t2 c1 c2 : euint32,
      let c := mkCall env (SubmitPortfolioData tv rp t1 t2 c1 c2) in
      let ready := lastSubmissionTime_at s a + cooldownSeconds s in
      providers_at s a = true -> paused s = false ->
      (ready <= MAX_UINT256 -> (exec s c = Revert CooldownActive <-> now < ready))
      /\ (ready <= MAX_UINT256 -> ready <= now ->
          batchClosed_at s (currentBatchId s) = false ->
          exists s' evs, exec s c = Ok (s', evs))
      /\ (MAX_UINT256 < ready -> exec s c = Revert ArithmeticPanic)
      /\ (forall s' evs, exec s c = Ok (s', evs) ->
          lastSubmissionTime_at s' a = now
          /\ (forall a', a' <> a ->
                lastSubmissionTime_at s' a' = lastSubmissionTime_at s a')
          /\ lastDecryptionRequestTime s' = lastDecryptionRequestTime s))
  /\
  (forall b : uint256,
      let c := mkCall env (RequestBatchDecryption b) in
      let ready := lastDecryptionRequestTime_at s a + cooldownSeconds s in
      a = owner s -> paused s = false -> batchClosed_at s b = true ->
      (ready <= MAX_UINT256 -> (exec s c = Revert CooldownActive <-> now < ready))
      /\ (ready <= MAX_UINT256 -> ready <= now ->
          FHE_isInitialized (totalValueSumEncrypted (batchResults_at s b)) = true ->
          exists s' evs, exec s c = Ok (s', evs))
      /\ (MAX_UINT256 < ready -> exec s c = Revert ArithmeticPanic)
      /\ (forall s' evs, exec s c = Ok (s', evs) ->
          lastDecryptionRequestTime_at s' a = now
          /\ (forall a', a' <> a ->
                lastDecryptionRequestTime_at s' a' = lastDecryptionRequestTime_at s a')
          /\ lastSubmissionTime s' = lastSubmissionTime s)).
Proof.
  cbv zeta. split.
  - intros tv rp t1 t2 c1 c2 Hprov Hpause.
    rewrite submitPortfolioData_eq. cbv zeta. rewrite Hprov, Hpause. simpl.
    destruct (Z.leb_spec
                (lastSubmissionTime_at s (msg_sender env) + cooldownSeconds s)
                MAX_UINT256) as [Hfit|Hover]; simpl.
    + destruct (Z.ltb_spec (block_timestamp env)
                  (lastSubmissionTime_at s (msg_sender env) + cooldownSeconds s))
        as [Hlt|Hge].
      * repeat split; try tauto; try lia; try discriminate.
      * split; [|split; [|split]].
        -- intros _. split; [|lia].
           destruct (batchClosed_at s (currentBatchId s)); discriminate.
        -- intros _ _ ->. eauto.
        -- lia.
        -- intros s' evs.
           destruct (batchClosed_at s (currentBatchId s)); [discriminate|].
           intros Hok. inversion Hok; subst.
           unfold lastSubmissionTime_at. simpl. split; [|split].
           ++ now rewrite lookup_insert_eq.
           ++ intros a' Ha'. now rewrite lookup_insert_ne.
           ++ reflexivity.
    + repeat split; try lia; try discriminate.
  - intros b Howner Hpause Hclosed.
    rewrite requestBatchDecryption_eq. cbv zeta.
    rewrite Howner, Z.eqb_refl, Hpause, Hclosed. simpl.
    destruct (Z.leb_spec
                (lastDecryptionRequestTime_at s (owner s) + cooldownSeconds s)
                MAX_UINT256) as [Hfit|Hover]; simpl.
    + destruct (Z.ltb_spec (block_timestamp env)
                  (lastDecryptionRequestTime_at s (owner s) + cooldownSeconds s))
        as [Hlt|Hge].
      * repeat split; try tauto; try lia; try discriminate.
      * split; [|split; [|split]].
        -- intros _. split; [|lia].
           destruct (FHE_isInitialized _); discriminate.
        -- intros _ _ ->. simpl. eauto.
        -- lia.
        -- intros s' evs.
           destruct (FHE_isInitialized _); [|discriminate]. simpl.
           intros Hok. inversion Hok; subst.
           unfold lastDecryptionRequestTime_at. simpl. split; [|split].
           ++ now rewrite lookup_insert_eq.
           ++ intros a' Ha'. now rewrite lookup_insert_ne.
           ++ reflexivity.
    + repeat split; try lia; try discriminate.
Qed.

End AccessControl.

(** ** Failed callbacks, callers, and the administration surface *)

Section Protocol.
Context {E : FHEVM}.

Lemma slice_fits (b : bytes) (lo hi : nat) :
  (hi <= length b)%nat -> slice b lo hi = Some (firstn (hi - lo) (skipn lo b)).
Proof.
  intros H. unfold slice.
  destruct (Nat.leb_spec hi (length b)); [reflexivity|lia].
Qed.

(** A callback that passes the three checks and carries four words. *)
Lemma myCallback_accepts (s : State) (env : Env) (rid : uint256) (ct pf : bytes) :
  let context := decryptionContexts_at s rid in
  let results := batchResults_at s (batchId context) in
  processed context = false ->
  FHE_isInitialized (totalValueSumEncrypted results) = true ->
  keccak256_abi_encode (cts_of results) address_this = stateHash context ->
  FHE_checkSignatures rid ct pf = true ->
  (128 <= length ct)%nat ->
  exists s' evs,
    exec s (mkCall env (MyCallback rid ct pf)) = Ok (s', evs)
    /\ processed (decryptionContexts_at s' rid) = true.
Proof.
  cbv zeta. intros Hp Hi Hh Hsig Hlen.
  rewrite myCallback_eq. cbv zeta. rewrite Hp, Hi, Hh, Z.eqb_refl, Hsig. simpl.
  rewrite !slice_fits by lia.
  eexists. eexists. split; [reflexivity|].
  unfold decryptionContexts_at. simpl. now rewrite lookup_insert_eq.
Qed.

(** C6, as the code has it.  A [myCallback] that reverts leaves the whole
    storage, the context included, as it was and logs nothing.  After a
    failed proof check the context is still unprocessed and a later
    callback for the same id whose cleartexts (four words) and proof pass
    the proof check succeeds.  After a failure at the replay guard the
    context is, and stays, processed, and after a failed state-binding
    check the mismatch is still there: on the unchanged storage every
    later callback for the id fails in the same way. *)
Theorem failed_callback_commits_nothing
  (s : State) (env : Env) (rid : uint256) (ct pf : bytes) (err : Error) :
  exec s (mkCall env (MyCallback rid ct pf)) = Revert err ->
  step s (mkCall env (MyCallback rid ct pf)) = s
  /\ emitted s (mkCall env (MyCallback rid ct pf)) = []
  /\ (err = InvalidProof ->
      processed (decryptionContexts_at s rid) = false
      /\ forall env' ct' pf',
           FHE_checkSignatures rid ct' pf' = true -> (128 <= length ct')%nat ->
           exists s' evs,
             exec s (mkCall env' (MyCallback rid ct' pf')) = Ok (s', evs)
             /\ processed (decryptionContexts_at s' rid) = true)
  /\ (err = ReplayAttempt ->
      processed (decryptionContexts_at s rid) = true
      /\ forall env' ct' pf',
           exec s (mkCall env' (MyCallback rid ct' pf')) = Revert ReplayAttempt)
  /\ (err = StateMismatch ->
      processed (decryptionContexts_at s rid) = false
      /\ forall env' ct' pf',
           exec s (mkCall env' (MyCallback rid ct' pf')) = Revert StateMismatch).
Proof.
  intros Hrev. destruct (step_revert _ _ _ Hrev) as [Hstep Hlog].
  split; [exact Hstep|]. split; [exact Hlog|].
  rewrite myCallback_eq in Hrev. cbv zeta in Hrev.
  destruct (processed (decryptionContexts_at s rid)) eqn:Hp.
  { inversion Hrev; subst. repeat split; try discriminate.
    intros env' ct' pf'. rewrite myCallback_eq. cbv zeta. now rewrite Hp. }
  destruct (FHE_isInitialized _) eqn:Hi; simpl in Hrev.
  2:{ inversion Hrev; subst. repeat split; discriminate. }
  destruct (Z.eqb_spec
              (keccak256_abi_encode
                 (cts_of (batchResults_at s (batchId (decryptionContexts_at s rid))))
                 address_this)
              (stateHash (decryptionContexts_at s rid))) as [Hh|Hh];
    simpl in Hrev.
  2:{ inversion Hrev; subst. repeat split; try discriminate.
      intros env' ct' pf'. rewrite myCallback_eq. cbv zeta. rewrite Hp, Hi. simpl.
      apply Z.eqb_neq in Hh. now rewrite Hh. }
  destruct (FHE_checkSignatures rid ct pf) eqn:Hsig; simpl in Hrev.
  2:{ inversion Hrev; subst. repeat split; try discriminate.
      intros env' ct' pf' Hsig' Hlen.
      now apply myCallback_accepts. }
  repeat match type of Hrev with
         | match slice ?c ?a ?b with _ => _ end = _ => destruct (slice c a b)
         end; inversion Hrev; subst; repeat split; discriminate.
Qed.

(** C7, as the code has it.  [myCallback] never looks at its caller: the
    outcome of a call is the same whoever sends it and whenever, and it is
    decided by the replay guard, the state-binding check, the proof check
    and the length of the cleartexts alone. *)
Theorem callback_ignores_caller
  (s : State) (env env' : Env) (rid : uint256) (ct pf : bytes) :
  exec s (mkCall env (MyCallback rid ct pf)) = exec s (mkCall env' (MyCallback rid ct pf))
  /\ ((exists s' evs, exec s (mkCall env (MyCallback rid ct pf)) = Ok (s', evs)) <->
      let context := decryptionContexts_at s rid in
      let results := batchResults_at s (batchId context) in
      processed context = false
      /\ FHE_isInitialized (totalValueSumEncrypted results) = true
      /\ keccak256_abi_encode (cts_of results) address_this = stateHash context
      /\ FHE_checkSignatures rid ct pf = true
      /\ (128 <= length ct)%nat).
Proof.
  split; [now rewrite !myCallback_eq|].
  cbv zeta. split.
  - intros (s' & evs & Hok). rewrite myCallback_eq in Hok. cbv zeta in Hok.
    destruct (processed _); [discriminate|].
    destruct (FHE_isInitialized _); [|discriminate]. simpl in Hok.
    destruct (Z.eqb_spec
                (keccak256_abi_encode
                   (cts_of (batchResults_at s (batchId (decryptionContexts_at s rid))))
                   address_this)
                (stateHash (decryptionContexts_at s rid))); [|discriminate].
    simpl in Hok.
    destruct (FHE_checkSignatures rid ct pf); [|discriminate]. simpl in Hok.
    repeat split; auto.
    destruct (slice ct 0 32); [|discriminate].
    destruct (slice ct 32 64); [|discriminate].
    destruct (slice ct 64 96); [|discriminate].
    unfold slice in Hok.
    destruct (Nat.leb_spec 128 (length ct)); [assumption|discriminate].
  - intros (Hp & Hi & Hh & Hsig & Hlen).
    destruct (myCallback_accepts s env rid ct pf Hp Hi Hh Hsig Hlen) as (s' & evs & Hok & _).
    eauto.
Qed.

(** C8, as the code has it.  Called by the owner, each of the five
    administration functions succeeds and emits one event.
    [OwnershipTransferred] and [CooldownSecondsSet] carry the old and the
    new value; [ProviderAdded] and [ProviderRemoved] carry the address
    only, and [ContractPaused] / [ContractUnpaused] the caller only. *)
Theorem administration_events (s : State) (env : Env) :
  msg_sender env = owner s ->
  (forall newOwner,
      exec s (mkCall env (TransferOwnership newOwner)) =
      Ok (set_owner newOwner s, [OwnershipTransferred (owner s) newOwner]))
  /\ (forall n,
      exec s (mkCall env (SetCooldownSeconds n)) =
      Ok (set_cooldownSeconds n s, [CooldownSecondsSet (cooldownSeconds s) n]))
  /\ (forall p,
      exec s (mkCall env (AddProvider p)) =
      Ok (set_providers (<[p := true]> (providers s)) s, [ProviderAdded p]))
  /\ (forall p,
      exec s (mkCall env (RemoveProvider p)) =
      Ok (set_providers (<[p := false]> (providers s)) s, [ProviderRemoved p]))
  /\ exec s (mkCall env (SetPaused true)) =
     Ok (set_paused true s, [ContractPaused (msg_sender env)])
  /\ exec s (mkCall env (SetPaused false)) =
     Ok (set_paused false s, [ContractUnpaused (msg_sender env)]).
Proof.
  intros Howner.
  repeat split; intros;
    first [ rewrite transferOwnership_eq | rewrite setCooldownSeconds_eq
          | rewrite addProvider_eq | rewrite removeProvider_eq
          | rewrite setPaused_eq ];
    now rewrite Howner, Z.eqb_refl.
Qed.

(** C10. A successful [transferOwnership] writes the owner and nothing
    else: the provider mapping is the same, so the previous owner keeps the
    role it had and the new owner gains none.  The constructor is the one
    place that enrolls the owner: after deployment the deployer is the only
    provider.  A new owner that was not a provider is turned away from
    [submitPortfolioData] with [NotProvider] until [addProvider] enrolls
    it. *)
Theorem transfer_keeps_providers
  (s : State) (env : Env) (newOwner : address) (s' : State) (evs : list Event) :
  exec s (mkCall env (TransferOwnership newOwner)) = Ok (s', evs) ->
  s' = set_owner newOwner s
  /\ owner s' = newOwner
  /\ providers s' = providers s
  /\ providers_at s' (owner s) = providers_at s (owner s)
  /\ providers_at s' newOwner = providers_at s newOwner
  /\ (forall deployer a, providers_at (deploy deployer) a = true <-> a = deployer)
  /\ (providers_at s newOwner = false ->
      (forall env' tv rp t1 t2 c1 c2,
          msg_sender env' = newOwner ->
          exec s' (mkCall env' (SubmitPortfolioData tv rp t1 t2 c1 c2))
          = Revert NotProvider)
      /\ (forall env',
          msg_sender env' = newOwner ->
          providers_at (step s' (mkCall env' (AddProvider newOwner))) newOwner = true)).
Proof.
  rewrite transferOwnership_eq.
  destruct (msg_sender env =? owner s); [|discriminate]. simpl.
  intros Hok. inversion Hok; subst.
  do 5 (split; [reflexivity|]). split; [|intros Hnot; split].
  - intros deployer a. unfold deploy, providers_at. simpl. split.
    + destruct (decide (deployer = a)) as [->|Hne]; [reflexivity|].
      rewrite lookup_insert_ne by exact Hne. rewrite lookup_empty. discriminate.
    + intros ->. now rewrite lookup_insert_eq.
  - intros env' tv rp t1 t2 c1 c2 Hsender.
    rewrite submitPortfolioData_eq. cbv zeta.
    replace (providers_at (set_owner newOwner s) (msg_sender env'))
      with (providers_at s newOwner) by (now subst).
    now rewrite Hnot.
  - intros env' Hsender.
    unfold step. rewrite addProvider_eq. simpl. rewrite Hsender, Z.eqb_refl. simpl.
    unfold providers_at. simpl. now rewrite lookup_insert_eq.
Qed.

End Protocol.

(** ** Order independence of the aggregation *)

Section Order.
Context {E : FHEVM}.

Lemma accepted_submissions (l : list (Env * UserPortfolioState)) (s : State) :
  accepted s (submissions l) = true ->
  currentBatchId (run s (submissions l)) = currentBatchId s
  /\ batchResults_at (run s (submissions l)) (currentBatchId s) =
     fold_left (fun r u => accumulate (seeded r) u) (map snd l)
               (batchResults_at s (currentBatchId s)).
Proof.
  revert s. induction l as [|[env u] l IH]; intros s Hacc; [now split|].
  simpl in Hacc. apply andb_true_iff in Hacc as [Hok Hacc].
  change (run s (submissions ((env, u) :: l)))
    with (run (step s (mkCall env (submission u))) (submissions l)).
  destruct (exec s (mkCall env (submission u))) as [[s1 evs]|err] eqn:Hexec;
    [|discriminate].
  destruct (step_ok _ _ _ _ Hexec) as [Hstep _]. rewrite Hstep in *.
  destruct u as [tv rp t1 t2 c1 c2]. unfold submission in Hexec. simpl in Hexec.
  destruct (submitPortfolioData_accepted s env tv rp t1 t2 c1 c2 s1 evs Hexec)
    as (Hres & _ & Hcur).
  destruct (IH s1 Hacc) as [Hcur' Hfold].
  rewrite Hcur in *. split; [exact Hcur'|].
  rewrite Hfold. simpl. now rewrite Hres.
Qed.

Context {L : AdditiveEngine E}.

Lemma seeded_accumulate (r : BatchAggregatedResults) (u : UserPortfolioState) :
  seeded (accumulate r u) = accumulate r u.
Proof. unfold seeded, accumulate. simpl. now rewrite FHE_add_initialized. Qed.

Lemma fold_seeded (us : list UserPortfolioState) (r : BatchAggregatedResults)
  (u : UserPortfolioState) :
  fold_left (fun r u => accumulate (seeded r) u) (u :: us) r =
  fold_left accumulate (u :: us) (seeded r).
Proof.
  assert (H : forall r0, seeded r0 = r0 ->
            fold_left (fun r u => accumulate (seeded r) u) us r0 =
            fold_left accumulate us r0).
  { induction us as [|v us IH]; intros r0 Hr0; [reflexivity|].
    simpl. rewrite Hr0. apply IH, seeded_accumulate. }
  simpl. apply H, seeded_accumulate.
Qed.

Lemma FHE_add_swap (a x y : euint32) :
  FHE_add (FHE_add a x) y = FHE_add (FHE_add a y) x.
Proof. now rewrite !FHE_add_assoc, (FHE_add_comm x y). Qed.

Lemma accumulate_swap (r : BatchAggregatedResults) (u v : UserPortfolioState) :
  accumulate (accumulate r u) v = accumulate (accumulate r v) u.
Proof.
  unfold accumulate. simpl. f_equal; apply FHE_add_swap.
Qed.

Lemma fold_accumulate_permutation (us vs : list UserPortfolioState) :
  Permutation us vs ->
  forall r, fold_left accumulate us r = fold_left accumulate vs r.
Proof.
  induction 1 as [|u us vs _ IH|u v us|us vs ws _ IH1 _ IH2]; intros r; simpl.
  - reflexivity.
  - apply IH.
  - now rewrite accumulate_swap.
  - now rewrite IH1.
Qed.

(** C9. Two runs of accepted submissions into the current batch whose
    submitted field tuples are a permutation of one another (senders and
    times may differ) leave the same four accumulators in that batch, for
    an engine whose addition is commutative and associative and returns
    initialized handles. *)
Theorem aggregation_order_independent
  (s : State) (l1 l2 : list (Env * UserPortfolioState)) :
  Permutation (map snd l1) (map snd l2) ->
  accepted s (submissions l1) = true ->
  accepted s (submissions l2) = true ->
  batchResults_at (run s (submissions l1)) (currentBatchId s) =
  batchResults_at (run s (submissions l2)) (currentBatchId s).
Proof.
  intros Hperm H1 H2.
  destruct (accepted_submissions l1 s H1) as [_ ->].
  destruct (accepted_submissions l2 s H2) as [_ ->].
  destruct (map snd l1) as [|u us] eqn:E1.
  - apply Permutation_nil in Hperm. now rewrite Hperm.
  - destruct (map snd l2) as [|v vs] eqn:E2.
    + apply Permutation_sym, Permutation_nil in Hperm. discriminate.
    + rewrite !fold_seeded. now apply fold_accumulate_permutation.
Qed.

End Order.

(** ** The scenarios, run on the small engine *)

Section Scenarios.
Import Toy.

Ltac run_accepted :=
  match goal with
  | |- exec ?s ?c = Ok _ => refine (exec_accepted s c _); vm_compute; reflexivity
  end.
Ltac run_reverted :=
  match goal with
  | |- exec ?s ?c = Revert ?e => refine (exec_reverted s c e _); vm_compute; reflexivity
  end.
Ltac evaluate := vm_compute; first [reflexivity | discriminate].

(** C5, counterexample.  Address 1 is a provider, the contract is not paused
    and batch 1 is open; it submitted at time 100 and the owner then set
    the cooldown to [2^256 - 1].  At time 200 the cooldown has not elapsed
    ([200 < 100 + cooldownSeconds]), yet the submission is not turned away
    with [CooldownActive]: the checked addition overflows and the call
    aborts with an arithmetic panic. *)
Lemma cooldown_overflow_counterexample :
  providers_at s_max_cooldown 1 = true
  /\ paused s_max_cooldown = false
  /\ batchClosed_at s_max_cooldown (currentBatchId s_max_cooldown) = false
  /\ lastSubmissionTime_at s_max_cooldown 1 = 100
  /\ cooldownSeconds s_max_cooldown = MAX_UINT256
  /\ 200 < lastSubmissionTime_at s_max_cooldown 1 + cooldownSeconds s_max_cooldown
  /\ exec s_max_cooldown (tx 1 200 (submission P)) = Revert ArithmeticPanic
  /\ exec s_max_cooldown (tx 1 200 (submission P)) <> Revert CooldownActive.
Proof.
  assert (H : exec s_max_cooldown (tx 1 200 (submission P)) = Revert ArithmeticPanic)
    by run_reverted.
  do 6 (split; [evaluate|]). split; [exact H|]. rewrite H. discriminate.
Qed.

(** C6, counterexample.  After the callback for request 7 has succeeded, a
    second callback fails at the replay guard; the context it leaves is
    processed, not unprocessed, and a later callback with valid cleartexts
    and a valid proof for the same id fails again. *)
Lemma replay_failure_counterexample :
  exec s_completed (callback_ok 999 201) = Revert ReplayAttempt
  /\ processed (decryptionContexts_at (step s_completed (callback_ok 999 201)) 7) = true
  /\ FHE_checkSignatures 7 cleartexts_ok proof_ok = true
  /\ length cleartexts_ok = 128%nat
  /\ exec (step s_completed (callback_ok 999 201)) (callback_ok 999 202)
     = Revert ReplayAttempt.
Proof.
  split; [run_reverted|]. do 3 (split; [evaluate|]). run_reverted.
Qed.

(** C7, counterexample.  With request 7 pending, the callback sent by
    address 998 and the one sent by address 999 are both accepted, mark the
    context processed and publish the result: no caller identity is
    required. *)
Lemma callback_any_caller_counterexample :
  owner s_requested = 1
  /\ processed (decryptionContexts_at s_requested 7) = false
  /\ is_ok (exec s_requested (callback_ok 998 200)) = true
  /\ is_ok (exec s_requested (callback_ok 999 200)) = true
  /\ processed (decryptionContexts_at (step s_requested (callback_ok 998 200)) 7) = true
  /\ processed (decryptionContexts_at (step s_requested (callback_ok 999 200)) 7) = true
  /\ emitted s_requested (callback_ok 998 200)
     = [DecryptionCompleted 7 1 100 3 10 (2 ^ 32 - 10)].
Proof. repeat apply conj; evaluate. Qed.

(** C8, counterexample.  [addProvider 5] emits the same [ProviderAdded 5]
    whether address 5 was a provider before or not, [removeProvider 5] the
    same [ProviderRemoved 5], and [setPaused true] the same
    [ContractPaused 1] whether the contract was paused before or not: these
    events do not carry the value before the change. *)
Lemma administration_events_counterexample :
  let s_before_absent := s_deployed in
  let s_before_present := step s_deployed (tx 1 10 (AddProvider 5)) in
  let s_before_paused := step s_deployed (tx 1 10 (SetPaused true)) in
  (providers_at s_before_absent 5 = false
   /\ providers_at s_before_present 5 = true
   /\ emitted s_before_absent (tx 1 20 (AddProvider 5)) = [ProviderAdded 5]
   /\ emitted s_before_present (tx 1 20 (AddProvider 5)) = [ProviderAdded 5])
  /\ (emitted s_before_absent (tx 1 20 (RemoveProvider 5)) = [ProviderRemoved 5]
      /\ emitted s_before_present (tx 1 20 (RemoveProvider 5)) = [ProviderRemoved 5])
  /\ (paused s_before_absent = false
      /\ paused s_before_paused = true
      /\ emitted s_before_absent (tx 1 20 (SetPaused true)) = [ContractPaused 1]
      /\ emitted s_before_paused (tx 1 20 (SetPaused true)) = [ContractPaused 1]).
Proof. cbv zeta. repeat apply conj; evaluate. Qed.

(** The small engine satisfies the laws of addition. *)
Lemma val_enc (x : Z) : val (enc x) = x mod 2 ^ 32.
Proof.
  unfold val, enc.
  replace (2 ^ 32 + x mod 2 ^ 32) with (x mod 2 ^ 32 + 1 * 2 ^ 32) by lia.
  rewrite Z_mod_plus_full. apply Z.mod_mod. lia.
Qed.

Lemma engine_additive : AdditiveEngine engine.
Proof.
  split; simpl.
  - intros a b. now rewrite Z.add_comm.
  - intros a b c. rewrite !val_enc. unfold enc. f_equal.
    rewrite Z.add_mod_idemp_l, Z.add_mod_idemp_r by lia. f_equal. lia.
  - intros a b. unfold enc.
    pose proof (Z.mod_pos_bound (val a + val b) (2 ^ 32)).
    destruct (Z.eqb_spec (2 ^ 32 + (val a + val b) mod 2 ^ 32) 0); [lia|reflexivity].
Qed.

(** C1 on the scenario: after the callback for request 7, the owner opens a
    batch, requests batch 1 again (the oracle issues id 8) and a stranger
    replays the callback; a further callback for 7 is a [ReplayAttempt]. *)
Lemma replay_guard_consumes_once_witness :
  let tr := [tx 1 300 OpenNewBatch;
             tx_id 1 301 8 (RequestBatchDecryption 1);
             callback_ok 5 302] in
  exec s_requested (callback_ok 999 200)
    = Ok (s_completed, emitted s_requested (callback_ok 999 200))
  /\ Forall (fun c => reissues 7 c = false) tr
  /\ processed (decryptionContexts_at s_requested 7) = false
  /\ processed (decryptionContexts_at s_completed 7) = true
  /\ exec (run s_completed tr) (callback_ok 999 400) = Revert ReplayAttempt.
Proof.
  intros tr.
  assert (H : exec s_requested (callback_ok 999 200)
              = Ok (s_completed, emitted s_requested (callback_ok 999 200)))
    by run_accepted.
  assert (F : Forall (fun c => reissues 7 c = false) tr)
    by (repeat constructor).
  destruct (replay_guard_consumes_once _ _ _ _ _ _ _ tr H F)
    as (H1 & H2 & _ & H4 & _).
  split; [exact H|]. split; [exact F|]. split; [exact H1|]. split; [exact H2|].
  exact (proj1 (H4 (mkEnv 999 400 0) cleartexts_ok proof_ok)).
Defined.

(** C2 on the scenario with the first accumulator of batch 1 replaced after
    the request: the callback fails with [StateMismatch]. *)
Lemma state_binding_check_witness :
  let context := decryptionContexts_at s_tampered 7 in
  let recomputed :=
    keccak256_abi_encode (cts_of (batchResults_at s_tampered (batchId context)))
      address_this in
  processed context = false
  /\ FHE_isInitialized
       (totalValueSumEncrypted (batchResults_at s_tampered (batchId context))) = true
  /\ recomputed <> stateHash context
  /\ exec s_tampered (callback_ok 999 200) = Revert StateMismatch.
Proof.
  intros context recomputed.
  assert (Hp : processed context = false) by evaluate.
  assert (Hi : FHE_isInitialized
                 (totalValueSumEncrypted
                    (batchResults_at s_tampered (batchId context))) = true)
    by evaluate.
  assert (Hne : recomputed <> stateHash context) by evaluate.
  split; [exact Hp|]. split; [exact Hi|]. split; [exact Hne|].
  exact (proj2 (proj2 (state_binding_check s_tampered (mkEnv 999 200 0) 7
                         cleartexts_ok proof_ok)) Hp Hi Hne).
Defined.

(** C3 on the first submission of the scenario: the accumulators of batch 1
    do not exist yet and are seeded with encrypted zero. *)
Lemma submission_aggregates_witness :
  exec s_deployed (tx 1 100 (submission P))
    = Ok (s_submitted, emitted s_deployed (tx 1 100 (submission P)))
  /\ FHE_isInitialized
       (totalValueSumEncrypted (batchResults_at s_deployed (currentBatchId s_deployed)))
     = false
  /\ batchResults_at s_submitted (currentBatchId s_deployed)
     = mkBatchAggregatedResults
         (FHE_add (FHE_asEuint32 0) (enc 100)) (FHE_add (FHE_asEuint32 0) (enc 3))
         (FHE_add (FHE_asEuint32 0) (FHE_sub (enc 50) (enc 40)))
         (FHE_add (FHE_asEuint32 0) (FHE_sub (enc 50) (enc 60))).
Proof.
  assert (H : exec s_deployed (tx 1 100 (submission P))
              = Ok (s_submitted, emitted s_deployed (tx 1 100 (submission P))))
    by run_accepted.
  assert (Hi : FHE_isInitialized
                 (totalValueSumEncrypted
                    (batchResults_at s_deployed (currentBatchId s_deployed)))
               = false) by evaluate.
  split; [exact H|]. split; [exact Hi|].
  pose proof (proj1 (submission_aggregates _ _ _ _ _ _ _ _ _ _ H)) as Hr.
  cbv zeta in Hr. rewrite Hi in Hr. exact Hr.
Defined.

(** C4 on the scenario: batch 1 stays closed with its accumulators, and a
    submission made while it is the current batch is turned away. *)
Lemma closed_batch_is_final_witness :
  let tr := [tx 1 300 (submission Q); tx 1 301 OpenNewBatch; tx 1 302 (submission Q)] in
  exec s_submitted (tx 1 101 CloseCurrentBatch)
    = Ok (s_closed, emitted s_submitted (tx 1 101 CloseCurrentBatch))
  /\ batchClosed_at (run s_closed tr) (currentBatchId s_submitted) = true
  /\ batchResults_at (run s_closed tr) (currentBatchId s_submitted)
     = batchResults_at s_submitted (currentBatchId s_submitted)
  /\ exec s_closed (tx 1 200 (submission Q)) = Revert BatchClosedOrInvalid.
Proof.
  intros tr.
  assert (H : exec s_submitted (tx 1 101 CloseCurrentBatch)
              = Ok (s_closed, emitted s_submitted (tx 1 101 CloseCurrentBatch)))
    by run_accepted.
  destruct (closed_batch_is_final _ _ _ _ tr H) as (Hc & Hr & Hsub).
  split; [exact H|]. split; [exact Hc|]. split; [exact Hr|]. 
  assert (Hclosed : batchClosed_at s_closed (currentBatchId s_closed) = true) by evaluate.
  assert (Hprov : providers_at s_closed 1 = true) by evaluate.
  assert (Hpause : paused s_closed = false) by evaluate.
  assert (Hnow : 200 <= MAX_UINT256) by evaluate.
  assert (Hready : lastSubmissionTime_at s_closed 1 + cooldownSeconds s_closed <= 200)
    by evaluate.
  exact (proj2 (proj2 (Hsub s_closed (mkEnv 1 200 0) (enc 250) (enc 5) (enc 30)
                         (enc 70) (enc 45) (enc 55) Hclosed))
           Hprov Hpause Hnow Hready).
Defined.

(** C5 on the scenario: 30 seconds after its submission, address 1 is turned
    away with [CooldownActive]. *)
Lemma cooldown_gate_witness :
  let ready := lastSubmissionTime_at s_submitted 1 + cooldownSeconds s_submitted in
  providers_at s_submitted 1 = true
  /\ paused s_submitted = false
  /\ ready <= MAX_UINT256
  /\ 130 < ready
  /\ exec s_submitted (tx 1 130 (submission Q)) = Revert CooldownActive.
Proof.
  intros ready.
  assert (Hprov : providers_at s_submitted 1 = true) by evaluate.
  assert (Hpause : paused s_submitted = false) by evaluate.
  assert (Hfit : ready <= MAX_UINT256) by evaluate.
  assert (Hlt : 130 < ready) by evaluate.
  split; [exact Hprov|]. split; [exact Hpause|]. split; [exact Hfit|].
  split; [exact Hlt|].
  destruct (proj1 (cooldown_gate s_submitted (mkEnv 1 130 0))
              (enc 250) (enc 5) (enc 30) (enc 70) (enc 45) (enc 55) Hprov Hpause)
    as (Hiff & _).
  exact (proj2 (Hiff Hfit) Hlt).
Defined.

(** C6 on the scenario: a callback with a bad proof fails, and the corrected
    callback for the same request id then succeeds. *)
Lemma failed_callback_commits_nothing_witness :
  exec s_requested (tx 999 200 (MyCallback 7 cleartexts_ok proof_bad))
    = Revert InvalidProof
  /\ FHE_checkSignatures 7 cleartexts_ok proof_ok = true
  /\ (128 <= length cleartexts_ok)%nat
  /\ processed (decryptionContexts_at s_requested 7) = false
  /\ exists s' evs,
       exec s_requested (callback_ok 999 300) = Ok (s', evs)
       /\ processed (decryptionContexts_at s' 7) = true.
Proof.
  assert (H : exec s_requested (tx 999 200 (MyCallback 7 cleartexts_ok proof_bad))
              = Revert InvalidProof) by run_reverted.
  assert (Hsig : FHE_checkSignatures 7 cleartexts_ok proof_ok = true) by evaluate.
  assert (Hlen : (128 <= length cleartexts_ok)%nat)
    by (apply Nat.leb_le; vm_compute; reflexivity).
  destruct (failed_callback_commits_nothing _ _ _ _ _ _ H) as (_ & _ & Hretry & _).
  destruct (Hretry eq_refl) as [Hp Hok].
  split; [exact H|]. split; [exact Hsig|]. split; [exact Hlen|]. split; [exact Hp|].
  exact (Hok (mkEnv 999 300 0) cleartexts_ok proof_ok Hsig Hlen).
Defined.

(** C8 on the deployed contract, called by its owner. *)
Lemma administration_events_witness :
  msg_sender (mkEnv 1 5 0) = owner s_deployed
  /\ exec s_deployed (tx 1 5 (TransferOwnership 9))
     = Ok (set_owner 9 s_deployed, [OwnershipTransferred (owner s_deployed) 9])
  /\ exec s_deployed (tx 1 5 (SetCooldownSeconds 30))
     = Ok (set_cooldownSeconds 30 s_deployed,
           [CooldownSecondsSet (cooldownSeconds s_deployed) 30])
  /\ exec s_deployed (tx 1 5 (AddProvider 5))
     = Ok (set_providers (<[5 := true]> (providers s_deployed)) s_deployed,
           [ProviderAdded 5]).
Proof.
  assert (Ho : msg_sender (mkEnv 1 5 0) = owner s_deployed) by evaluate.
  destruct (administration_events s_deployed (mkEnv 1 5 0) Ho)
    as (Ht & Hc & Ha & _).
  split; [exact Ho|]. split; [exact (Ht 9)|]. split; [exact (Hc 30)|]. exact (Ha 5).
Defined.

(** C9 on three providers submitting in two different orders. *)
Lemma aggregation_order_independent_witness :
  let l1 := [(mkEnv 1 100 0, P); (mkEnv 2 100 0, Q); (mkEnv 3 100 0, T)] in
  let l2 := [(mkEnv 3 100 0, T); (mkEnv 1 100 0, P); (mkEnv 2 100 0, Q)] in
  AdditiveEngine engine
  /\ Permutation (map snd l1) (map snd l2)
  /\ accepted s_three (submissions l1) = true
  /\ accepted s_three (submissions l2) = true
  /\ batchResults_at (run s_three (submissions l1)) (currentBatchId s_three)
     = batchResults_at (run s_three (submissions l2)) (currentBatchId s_three).
Proof.
  intros l1 l2.
  assert (Hperm : Permutation (map snd l1) (map snd l2)).
  { apply Permutation_sym. exact (Permutation_cons_append [P; Q] T). }
  assert (H1 : accepted s_three (submissions l1) = true) by evaluate.
  assert (H2 : accepted s_three (submissions l2) = true) by evaluate.
  split; [exact engine_additive|]. split; [exact Hperm|].
  split; [exact H1|]. split; [exact H2|].
  exact (@aggregation_order_independent engine engine_additive s_three l1 l2
           Hperm H1 H2).
Defined.

(** C10 on the deployed contract: ownership goes from address 1 to
    address 9, which cannot submit until it is added as a provider. *)
Lemma transfer_keeps_providers_witness :
  let s' := step s_deployed (tx 1 5 (TransferOwnership 9)) in
  exec s_deployed (tx 1 5 (TransferOwnership 9))
    = Ok (s', emitted s_deployed (tx 1 5 (TransferOwnership 9)))
  /\ providers_at s_deployed 9 = false
  /\ owner s' = 9
  /\ providers s' = providers s_deployed
  /\ exec s' (tx 9 500 (submission P)) = Revert NotProvider
  /\ providers_at (step s' (tx 9 501 (AddProvider 9))) 9 = true.
Proof.
  intros s'.
  assert (H : exec s_deployed (tx 1 5 (TransferOwnership 9))
              = Ok (s', emitted s_deployed (tx 1 5 (TransferOwnership 9))))
    by run_accepted.
  assert (Hnot : providers_at s_deployed 9 = false) by evaluate.
  destruct (transfer_keeps_providers _ _ _ _ _ H)
    as (_ & Ho & Hp & _ & _ & _ & Hnew).
  destruct (Hnew Hnot) as [Hsub Hadd].
  split; [exact H|]. split; [exact Hnot|]. split; [exact Ho|]. split; [exact Hp|].
  split.
  - exact (Hsub (mkEnv 9 500 0) (enc 100) (enc 3) (enc 50) (enc 50) (enc 40) (enc 60)
             eq_refl).
  - exact (Hadd (mkEnv 9 501 0) eq_refl).
Defined.

End Scenarios.

(** ** Lifecycle of batches *)

Section BatchIds.
Context {E : FHEVM}.

Ltac by_equation :=
  first [ rewrite transferOwnership_eq | rewrite addProvider_eq
        | rewrite removeProvider_eq | rewrite setPaused_eq
        | rewrite setCooldownSeconds_eq | rewrite openNewBatch_eq
        | rewrite closeCurrentBatch_eq | rewrite submitPortfolioData_eq
        | rewrite requestBatchDecryption_eq | rewrite myCallback_eq ].

Ltac split_ifs :=
  repeat match goal with
         | |- context [if ?b then _ else _] => destruct b eqn:?
         | |- context [match slice ?c ?a ?b with _ => _ end] => destruct (slice c a b)
         end.

Lemma deploy_lifecycle_ok (deployer : address) : lifecycle_ok (deploy deployer).
Proof.
  unfold lifecycle_ok, deploy. simpl. split; [lia|].
  intros b _. now rewrite !lookup_empty.
Qed.

Lemma step_lifecycle_ok (s : State) (c : Call) :
  lifecycle_ok s -> lifecycle_ok (step s c).
Proof.
  intros [Hcur Hout]. destruct c as [env op]. unfold step, lifecycle_ok.
  destruct op; by_equation; cbv zeta; split_ifs; simpl; auto.
  - (* openNewBatch *)
    split; [lia|]. intros b Hb. apply Hout. lia.
  - (* closeCurrentBatch *)
    split; [exact Hcur|]. intros b Hb. destruct (Hout b Hb) as [Hc Hr].
    split; [|exact Hr]. rewrite lookup_insert_ne; [exact Hc|lia].
  - (* submitPortfolioData *)
    split; [exact Hcur|]. intros b Hb. destruct (Hout b Hb) as [Hc Hr].
    split; [exact Hc|]. rewrite lookup_insert_ne; [exact Hr|lia].
Qed.

Lemma run_lifecycle_ok (tr : list Call) (s : State) :
  lifecycle_ok s -> lifecycle_ok (run s tr).
Proof.
  revert s. induction tr as [|c tr IH]; intros s Hs; [exact Hs|].
  rewrite run_cons. apply IH, step_lifecycle_ok, Hs.
Qed.

(** X1. On any storage reached from deployment, an accepted
    [openNewBatch] moves to the next id and that batch starts open and
    without accumulators, as the code's comment says; every batch keeps
    its closed flag and accumulators. *)
Theorem new_batch_starts_open_and_empty
  (deployer : address) (tr : list Call) (env : Env) (s' : State) (evs : list Event) :
  exec (run (deploy deployer) tr) (mkCall env OpenNewBatch) = Ok (s', evs) ->
  let s := run (deploy deployer) tr in
  currentBatchId s' = currentBatchId s + 1
  /\ evs = [BatchOpened (currentBatchId s + 1)]
  /\ batchClosed_at s' (currentBatchId s') = false
  /\ batchResults_at s' (currentBatchId s') = BatchAggregatedResults_default
  /\ (forall b, batchClosed_at s' b = batchClosed_at s b
                /\ batchResults_at s' b = batchResults_at s b).
Proof.
  intros Hok. cbv zeta.
  destruct (run_lifecycle_ok tr _ (deploy_lifecycle_ok deployer)) as [Hcur Hout].
  rewrite openNewBatch_eq in Hok.
  repeat match type of Hok with
         | (if ?b then _ else _) = _ => destruct b; try discriminate
         end.
  inversion Hok; subst. simpl.
  destruct (Hout (currentBatchId (run (deploy deployer) tr) + 1)) as [Hc Hr]; [lia|].
  unfold batchClosed_at, batchResults_at. simpl. rewrite Hc, Hr.
  repeat split; reflexivity.
Qed.

Lemma step_currentBatchId (s : State) (c : Call) :
  currentBatchId (step s c) =
  currentBatchId s
  + (if is_openNewBatch (call_op c) && is_ok (exec s c) then 1 else 0).
Proof.
  destruct c as [env op]. unfold step.
  destruct op; by_equation; cbv zeta; simpl;
    repeat match goal with
           | |- context [if ?b then _ else _] =>
               lazymatch b with
               | is_ok _ => fail
               | _ => destruct b eqn:?
               end
           | |- context [match slice ?c ?a ?b with _ => _ end] => destruct (slice c a b)
           end; simpl; lia.
Qed.

(** X2. Over any trace the current batch id grows by exactly the number
    of accepted [openNewBatch] calls: it never decreases, and no other
    function moves it. *)
Theorem currentBatchId_counts_openings (tr : list Call) (s : State) :
  currentBatchId (run s tr) = currentBatchId s + Z.of_nat (opened s tr)
  /\ currentBatchId s <= currentBatchId (run s tr).
Proof.
  assert (H : forall tr s,
             currentBatchId (run s tr) = currentBatchId s + Z.of_nat (opened s tr)).
  { clear. induction tr as [|c tr IH]; intros s; [simpl; lia|].
    rewrite run_cons, IH, step_currentBatchId. simpl opened.
    destruct (is_openNewBatch (call_op c) && is_ok (exec s c)); lia. }
  split; [apply H|]. rewrite H. lia.
Qed.

Lemma step_superseded (s : State) (c : Call) (b : uint256) :
  batchClosed_at s b = false -> b < currentBatchId s ->
  batchClosed_at (step s c) b = false
  /\ b < currentBatchId (step s c)
  /\ batchResults_at (step s c) b = batchResults_at s b.
Proof.
  intros Hopen Hlt. destruct c as [env op]. unfold step.
  destruct op; by_equation; cbv zeta; split_ifs; simpl; auto.
  - (* openNewBatch *) repeat split; auto. lia.
  - (* closeCurrentBatch *)
    split; [|auto]. unfold batchClosed_at in *. simpl.
    rewrite lookup_insert_ne; [exact Hopen|lia].
  - (* submitPortfolioData *)
    repeat split; auto. unfold batchResults_at. simpl.
    rewrite lookup_insert_ne; [reflexivity|lia].
Qed.

(** X3. A batch that is still open when [openNewBatch] moves past it is
    frozen for good: whatever calls follow it is never closed, its
    accumulators never change, and no [requestBatchDecryption] for it is
    ever accepted. *)
Theorem superseded_open_batch_is_stuck
  (s : State) (b : uint256) (tr : list Call) :
  batchClosed_at s b = false ->
  b < currentBatchId s ->
  batchClosed_at (run s tr) b = false
  /\ batchResults_at (run s tr) b = batchResults_at s b
  /\ forall env, is_ok (exec (run s tr) (mkCall env (RequestBatchDecryption b))) = false.
Proof.
  revert s. induction tr as [|c tr IH]; intros s Hopen Hlt.
  - simpl. repeat split; auto. intros env.
    rewrite requestBatchDecryption_eq. cbv zeta. rewrite Hopen.
    now destruct (negb (msg_sender env =? owner s)), (paused s).
  - rewrite run_cons.
    destruct (step_superseded s c b Hopen Hlt) as (Ho & Hl & Hr).
    destruct (IH (step s c) Ho Hl) as (Ho' & Hr' & Hreq).
    repeat split; auto. congruence.
Qed.

End BatchIds.

(** ** Roles, pause and the event log *)

Section Roles.
Context {E : FHEVM}.

Ltac by_equation :=
  first [ rewrite transferOwnership_eq | rewrite addProvider_eq
        | rewrite removeProvider_eq | rewrite setPaused_eq
        | rewrite setCooldownSeconds_eq | rewrite openNewBatch_eq
        | rewrite closeCurrentBatch_eq | rewrite submitPortfolioData_eq
        | rewrite requestBatchDecryption_eq | rewrite myCallback_eq ].

Ltac split_ifs :=
  repeat match goal with
         | |- context [if ?b then _ else _] => destruct b eqn:?
         | |- context [match slice ?c ?a ?b with _ => _ end] => destruct (slice c a b)
         end.

Lemma owner_only_reverts (s : State) (c : Call) :
  msg_sender (call_env c) <> owner s ->
  owner_only (call_op c) = true -> exec s c = Revert NotOwner.
Proof.
  intros Hne. apply Z.eqb_neq in Hne. destruct c as [env op]. simpl in Hne.
  destruct op; try discriminate; intros _; by_equation; cbv zeta; now rewrite Hne.
Qed.

(** X4. A caller that is not the owner is turned away with [NotOwner] by
    every function under [onlyOwner], paused or not, and whatever it calls
    it cannot change the owner, the provider set, the pause flag, the
    cooldown, the current batch id, the closed flags or the decryption
    request times. *)
Theorem non_owner_cannot_administer (s : State) (c : Call) :
  msg_sender (call_env c) <> owner s ->
  (owner_only (call_op c) = true -> exec s c = Revert NotOwner)
  /\ owner (step s c) = owner s
  /\ providers (step s c) = providers s
  /\ paused (step s c) = paused s
  /\ cooldownSeconds (step s c) = cooldownSeconds s
  /\ currentBatchId (step s c) = currentBatchId s
  /\ batchClosed (step s c) = batchClosed s
  /\ lastDecryptionRequestTime (step s c) = lastDecryptionRequestTime s.
Proof.
  intros Hne. apply Z.eqb_neq in Hne. destruct c as [env op]. simpl in Hne.
  split.
  - apply (owner_only_reverts s (mkCall env op)). simpl. now apply Z.eqb_neq.
  - unfold step.
    destruct (exec s (mkCall env op)) as [[s' evs]|err] eqn:Hexec;
      [|repeat split; reflexivity].
    destruct op; revert Hexec; by_equation; cbv zeta; rewrite ?Hne; simpl;
      try discriminate; intros Hexec;
      repeat match type of Hexec with
             | (if ?b then _ else _) = _ => destruct b eqn:?; try discriminate
             | match slice ?c ?a ?b with _ => _ end = _ =>
                 destruct (slice c a b); try discriminate
             end;
      inversion Hexec; subst; simpl; repeat split; congruence.
Qed.

(** X5. While the contract is paused no [openNewBatch],
    [closeCurrentBatch], [submitPortfolioData] or [requestBatchDecryption]
    is accepted (an authorized caller gets [Paused]); [myCallback] is not
    under the pause: its outcome is the same paused or not. *)
Theorem pause_stops_all_but_the_callback (s : State) (env : Env) :
  (paused s = true ->
   forall o, pausable o = true ->
     is_ok (exec s (mkCall env o)) = false
     /\ ((if owner_only o then msg_sender env =? owner s
          else providers_at s (msg_sender env)) = true ->
         exec s (mkCall env o) = Revert Paused))
  /\ (forall flag rid ct pf,
        is_ok (exec (set_paused flag s) (mkCall env (MyCallback rid ct pf)))
        = is_ok (exec s (mkCall env (MyCallback rid ct pf)))
        /\ error_of (exec (set_paused flag s) (mkCall env (MyCallback rid ct pf)))
           = error_of (exec s (mkCall env (MyCallback rid ct pf)))
        /\ emitted (set_paused flag s) (mkCall env (MyCallback rid ct pf))
           = emitted s (mkCall env (MyCallback rid ct pf))).
Proof.
  split.
  - intros Hp o Ho.
    destruct o; try discriminate; by_equation; cbv zeta; rewrite Hp; simpl.
    + destruct (msg_sender env =? owner s); simpl; split; auto; discriminate.
    + destruct (msg_sender env =? owner s); simpl; split; auto; discriminate.
    + destruct (providers_at s (msg_sender env)); simpl; split; auto; discriminate.
    + destruct (msg_sender env =? owner s); simpl; split; auto; discriminate.
  - intros flag rid ct pf. unfold emitted. rewrite !myCallback_eq. cbv zeta.
    change (decryptionContexts_at (set_paused flag s) rid)
      with (decryptionContexts_at s rid).
    change (batchResults_at (set_paused flag s)) with (batchResults_at s).
    split_ifs; simpl; auto.
Qed.

(** X6. After the owner hands the contract over to a different address,
    the previous owner is turned away with [NotOwner] by every function
    under [onlyOwner], and the five administration functions accept the
    new owner. *)
Theorem ownership_handover
  (s : State) (env : Env) (newOwner : address) (s' : State) (evs : list Event) :
  exec s (mkCall env (TransferOwnership newOwner)) = Ok (s', evs) ->
  newOwner <> owner s ->
  (forall env' o, msg_sender env' = owner s -> owner_only o = true ->
                  exec s' (mkCall env' o) = Revert NotOwner)
  /\ (forall env' o, msg_sender env' = newOwner ->
        owner_only o = true -> pausable o = false ->
        is_ok (exec s' (mkCall env' o)) = true).
Proof.
  rewrite transferOwnership_eq.
  destruct (msg_sender env =? owner s); [|discriminate]. simpl.
  intros Hok Hne. inversion Hok; subst. split.
  - intros env' o Hold Ho.
    assert (Hown : owner (set_owner newOwner s) = newOwner) by reflexivity.
    assert (Hs : msg_sender (call_env (mkCall env' o)) <> owner (set_owner newOwner s)).
    { simpl. congruence. }
    exact (owner_only_reverts _ _ Hs Ho).
  - intros env' o Hnew Ho Hp.
    destruct o; try discriminate; by_equation; simpl;
      rewrite Hnew, Z.eqb_refl; reflexivity.
Qed.


(** X8. Every accepted call logs exactly one event, of the kind of the
    function called and naming its argument; a call that reverts logs
    none. *)
Theorem one_event_per_accepted_call (s : State) (c : Call) :
  (forall s' evs, exec s c = Ok (s', evs) ->
     exists ev, evs = [ev] /\ logs (call_op c) ev = true)
  /\ (forall err, exec s c = Revert err -> emitted s c = []).
Proof.
  split.
  - intros s' evs. destruct c as [env op].
    destruct op; by_equation; cbv zeta; split_ifs; simpl;
      try discriminate; intros Hok; inversion Hok; subst;
      eexists; (split; [reflexivity|]); simpl;
      rewrite ?Z.eqb_refl; reflexivity.
  - intros err Hrev. exact (proj2 (step_revert _ _ _ Hrev)).
Qed.

End Roles.

(** ** Requests, callbacks and what reaches the log *)

Section Requests.
Context {E : FHEVM}.

Ltac by_equation :=
  first [ rewrite transferOwnership_eq | rewrite addProvider_eq
        | rewrite removeProvider_eq | rewrite setPaused_eq
        | rewrite setCooldownSeconds_eq | rewrite openNewBatch_eq
        | rewrite closeCurrentBatch_eq | rewrite submitPortfolioData_eq
        | rewrite requestBatchDecryption_eq | rewrite myCallback_eq ].

Ltac split_ifs :=
  repeat match goal with
         | |- context [if ?b then _ else _] => destruct b eqn:?
         | |- context [match slice ?c ?a ?b with _ => _ end] => destruct (slice c a b)
         end.

Ltac passed H :=
  repeat match type of H with
         | (if ?b then _ else _) = _ => destruct b eqn:?; try discriminate
         | match slice ?c ?a ?b with _ => _ end = _ =>
             destruct (slice c a b) eqn:?; try discriminate
         end.

(** A context is written only by the request that is issued its id and
    by a callback for that id. *)
Lemma step_context_untouched (s : State) (c : Call) (rid : uint256) :
  reissues rid c = false -> callback_for rid c = false ->
  decryptionContexts_at (step s c) rid = decryptionContexts_at s rid.
Proof.
  intros Hr Hc. destruct c as [env op]. unfold step, reissues, callback_for in *.
  simpl in Hr, Hc.
  destruct op; by_equation; cbv zeta; split_ifs; simpl; auto;
    unfold decryptionContexts_at; simpl;
    (rewrite lookup_insert_ne; [reflexivity|lia]).
Qed.

Lemma run_context_untouched (tr : list Call) (s : State) (rid : uint256) :
  Forall (fun c => reissues rid c = false /\ callback_for rid c = false) tr ->
  decryptionContexts_at (run s tr) rid = decryptionContexts_at s rid.
Proof.
  revert s. induction tr as [|c tr IH]; intros s Hall; [reflexivity|].
  inversion Hall as [|? ? [Hr Hc] Htr]; subst.
  rewrite run_cons, IH by exact Htr. now apply step_context_untouched.
Qed.

(** X9. An accepted [requestBatchDecryption] for batch [b] logs
    [DecryptionRequested] and stores, under the id the oracle issued, the
    batch id, the hash of the batch's four handles and [processed = false].
    From then on, whatever calls follow short of a callback for that id or
    a request issued the same id, a callback whose proof the engine accepts
    and whose cleartexts hold four words is accepted, from any caller, and
    logs [DecryptionCompleted] with the request id, [b] and the four
    decoded words. *)
Theorem pending_request_can_be_completed
  (s : State) (env : Env) (b : uint256) (s1 : State) (evs : list Event)
  (tr : list Call) (env' : Env) (ct pf : bytes) :
  exec s (mkCall env (RequestBatchDecryption b)) = Ok (s1, evs) ->
  Forall (fun c => reissues (oracle_requestId env) c = false
                   /\ callback_for (oracle_requestId env) c = false) tr ->
  FHE_checkSignatures (oracle_requestId env) ct pf = true ->
  (128 <= length ct)%nat ->
  let rid := oracle_requestId env in
  let w (i : nat) := abi_decode_uint256 (firstn 32 (skipn (32 * i) ct)) in
  evs = [DecryptionRequested rid b]
  /\ decryptionContexts_at s1 rid =
     mkDecryptionContext b (_hashCiphertexts (cts_of (batchResults_at s b))) false
  /\ exists s2,
       exec (run s1 tr) (mkCall env' (MyCallback rid ct pf))
       = Ok (s2, [DecryptionCompleted rid b (w 0%nat) (w 1%nat) (w 2%nat) (w 3%nat)])
       /\ processed (decryptionContexts_at s2 rid) = true.
Proof.
  intros Hok Hquiet Hsig Hlen. cbv zeta.
  rewrite requestBatchDecryption_eq in Hok. cbv zeta in Hok. passed Hok.
  inversion Hok; subst. clear Hok.
  match goal with
  | |- context [run ?x tr] => set (s1 := x)
  end.
  assert (Hctx : decryptionContexts_at s1 (oracle_requestId env) =
                 mkDecryptionContext b
                   (_hashCiphertexts (cts_of (batchResults_at s b))) false).
  { unfold s1, decryptionContexts_at. simpl. now rewrite lookup_insert_eq. }
  assert (Hclosed : batchClosed_at s1 b = true).
  { change (batchClosed_at s1 b) with (batchClosed_at s b).
    now destruct (batchClosed_at s b). }
  destruct (run_closed_batch tr s1 b Hclosed) as [_ Hres].
  change (batchResults_at s1 b) with (batchResults_at s b) in Hres.
  pose proof (run_context_untouched tr s1 _ Hquiet) as Hkeep.
  rewrite Hctx in Hkeep.
  split; [reflexivity|]. split; [exact Hctx|].
  rewrite myCallback_eq. cbv zeta. rewrite Hkeep. simpl. rewrite Hres.
  match goal with
  | H : negb (FHE_isInitialized _) = false |- _ =>
      apply negb_false_iff in H; rewrite H
  end. simpl.
  unfold _hashCiphertexts. rewrite Z.eqb_refl, Hsig. simpl.
  rewrite !slice_fits by lia. simpl.
  eexists. split; [reflexivity|].
  unfold decryptionContexts_at. simpl. now rewrite lookup_insert_eq.
Qed.

Lemma abi_decode_uint256_bounds (w : bytes) :
  0 <= abi_decode_uint256 w < 256 ^ Z.of_nat (length w).
Proof.
  unfold abi_decode_uint256.
  assert (H : forall w a, 0 <= a ->
            a * 256 ^ Z.of_nat (length w)
            <= fold_left (fun acc x => acc * 256 + Z.of_N (Byte.to_N x)) w a
            < (a + 1) * 256 ^ Z.of_nat (length w)).
  { clear. induction w as [|x w IH]; intros a Ha; [simpl; lia|].
    pose proof (Byte.to_N_bounded x) as Hx.
    cbn [fold_left length]. rewrite Nat2Z.inj_succ, Z.pow_succ_r by lia.
    specialize (IH (a * 256 + Z.of_N (Byte.to_N x))).
    assert (Hp : 0 < 256 ^ Z.of_nat (length w)) by (apply Z.pow_pos_nonneg; lia).
    destruct IH as [IH1 IH2]; [lia|]. split; nia. }
  specialize (H w 0). lia.
Qed.

Lemma word_in_range (ct : bytes) (i : nat) :
  0 <= abi_decode_uint256 (firstn 32 (skipn (32 * i) ct)) <= MAX_UINT256.
Proof.
  pose proof (abi_decode_uint256_bounds (firstn 32 (skipn (32 * i) ct))) as [H0 H1].
  split; [exact H0|].
  assert (Hl : (length (firstn 32 (skipn (32 * i) ct)) <= 32)%nat)
    by (rewrite length_firstn; lia).
  assert (Hp : 256 ^ Z.of_nat (length (firstn 32 (skipn (32 * i) ct))) <= 256 ^ 32)
    by (apply Z.pow_le_mono_r; lia).
  unfold MAX_UINT256. change (2 ^ 256) with (256 ^ 32). lia.
Qed.

Lemma slice_inside (c : bytes) (lo hi : nat) (w : bytes) :
  slice c lo hi = Some w ->
  (hi <= length c)%nat /\ w = firstn (hi - lo) (skipn lo c).
Proof.
  unfold slice. destruct (Nat.leb_spec hi (length c)) as [Hle|Hgt]; [|discriminate].
  intros Hw. inversion Hw. now split.
Qed.

(** X10. An accepted callback logs one [DecryptionCompleted] carrying
    the request id, the batch id of the stored context and the four
    32-byte big-endian words at offsets 0, 32, 64 and 96 of the
    cleartexts, each a value of [uint256]; bytes past offset 128 do not
    reach the log.  The one thing it writes is the [processed] flag of
    that context. *)
Theorem callback_publishes_the_four_words
  (s : State) (env : Env) (rid : uint256) (ct pf : bytes)
  (s' : State) (evs : list Event) :
  exec s (mkCall env (MyCallback rid ct pf)) = Ok (s', evs) ->
  let context := decryptionContexts_at s rid in
  let w (c : bytes) (i : nat) := abi_decode_uint256 (firstn 32 (skipn (32 * i) c)) in
  evs = [DecryptionCompleted rid (batchId context)
           (w ct 0%nat) (w ct 1%nat) (w ct 2%nat) (w ct 3%nat)]
  /\ (forall i, 0 <= w ct i <= MAX_UINT256)
  /\ (forall extra i, (i < 4)%nat -> w (ct ++ extra) i = w ct i)
  /\ s' = set_decryptionContexts
            (<[rid := mkDecryptionContext (batchId context) (stateHash context) true]>
               (decryptionContexts s)) s.
Proof.
  intros Hok. cbv zeta.
  rewrite myCallback_eq in Hok. cbv zeta in Hok. passed Hok.
  repeat match goal with
         | H : slice _ _ _ = Some _ |- _ =>
             apply slice_inside in H; destruct H as [? ->]
         end.
  assert (Hlen : (128 <= length ct)%nat) by assumption.
  inversion Hok; subst. clear Hok.
  split; [reflexivity|]. split; [intros i; apply word_in_range|].
  split; [|reflexivity].
  intros extra i Hi.
  assert (Hskip : (32 * i + 32 <= length ct)%nat) by lia.
  rewrite skipn_app, firstn_app.
  replace (32 * i - length ct)%nat with 0%nat by lia.
  replace (32 - length (skipn (32 * i) ct))%nat with 0%nat
    by (rewrite length_skipn; lia).
  simpl. now rewrite app_nil_r.
Qed.

End Requests.

(** ** Storage reached from deployment *)

Section Reached.
Context {E : FHEVM}.

Ltac by_equation :=
  first [ rewrite transferOwnership_eq | rewrite addProvider_eq
        | rewrite removeProvider_eq | rewrite setPaused_eq
        | rewrite setCooldownSeconds_eq | rewrite openNewBatch_eq
        | rewrite closeCurrentBatch_eq | rewrite submitPortfolioData_eq
        | rewrite requestBatchDecryption_eq | rewrite myCallback_eq ].

Ltac passed H :=
  repeat match type of H with
         | (if ?b then _ else _) = _ => destruct b eqn:?; try discriminate
         | match slice ?c ?a ?b with _ => _ end = _ =>
             destruct (slice c a b) eqn:?; try discriminate
         end.

(** The engine's law on storage: a slot never written holds no
    initialized handle. *)
Hypothesis default_uninitialized : FHE_isInitialized euint32_default = false.

Lemma deploy_bindings_ok (deployer : address) : bindings_ok (deploy deployer).
Proof. intros rid ctx. unfold deploy. simpl. now rewrite lookup_empty. Qed.

Lemma step_bindings_ok (s : State) (c : Call) :
  lifecycle_ok s -> bindings_ok s -> bindings_ok (step s c).
Proof.
  intros [Hcur Hout] Hb. unfold step.
  destruct (exec s c) as [[s' evs]|err] eqn:Hexec; [|exact Hb].
  destruct c as [env op].
  destruct op; revert Hexec; by_equation; cbv zeta; intros Hexec; passed Hexec;
    inversion Hexec; subst; clear Hexec; try exact Hb.
  - (* closeCurrentBatch *)
    intros rid ctx Hctx. destruct (Hb rid ctx Hctx) as (Hc & Hi & Hh).
    split; [|split; [exact Hi|exact Hh]].
    unfold batchClosed_at in *. simpl.
    destruct (decide (currentBatchId s = batchId ctx)) as [->|Hne].
    + now rewrite lookup_insert_eq.
    + now rewrite lookup_insert_ne.
  - (* submitPortfolioData *)
    intros rid ctx Hctx. destruct (Hb rid ctx Hctx) as (Hc & Hi & Hh).
    assert (Hne : currentBatchId s <> batchId ctx) by congruence.
    unfold batchResults_at in *. simpl.
    rewrite lookup_insert_ne by exact Hne. auto.
  - (* requestBatchDecryption *)
    intros rid ctx. simpl.
    destruct (decide (oracle_requestId env = rid)) as [->|Hne].
    + rewrite lookup_insert_eq. intros Hctx. inversion Hctx; subst. simpl.
      repeat match goal with
             | H : negb _ = false |- _ => apply negb_false_iff in H
             end.
      auto.
    + rewrite lookup_insert_ne by exact Hne. apply Hb.
  - (* myCallback *)
    intros rid ctx. simpl.
    destruct (decide (requestId = rid)) as [->|Hne].
    + rewrite lookup_insert_eq. intros Hctx. inversion Hctx; subst. simpl.
      unfold decryptionContexts_at in *.
      destruct (decryptionContexts s !! rid) as [c0|] eqn:Hc0; simpl in *.
      * exact (Hb rid c0 Hc0).
      * exfalso. destruct (Hout 0) as [_ Hnone]; [lia|].
        unfold batchResults_at in *. rewrite Hnone in *. simpl in *.
        rewrite default_uninitialized in *. discriminate.
    + rewrite lookup_insert_ne by exact Hne. apply Hb.
Qed.

Lemma reached_ok (deployer : address) (tr : list Call) :
  lifecycle_ok (run (deploy deployer) tr) /\ bindings_ok (run (deploy deployer) tr).
Proof.
  assert (H : forall tr s, lifecycle_ok s -> bindings_ok s ->
                           lifecycle_ok (run s tr) /\ bindings_ok (run s tr)).
  { clear tr. induction tr as [|c tr IH]; intros s Hl Hb; [now split|].
    rewrite run_cons. apply IH.
    - apply step_lifecycle_ok, Hl.
    - apply step_bindings_ok; assumption. }
  apply H; [apply deploy_lifecycle_ok|apply deploy_bindings_ok].
Qed.

(** X11. On any storage reached from deployment, the state-binding
    check of [myCallback] never fails: no callback reverts with
    [StateMismatch], and for a stored request the initialization check
    passes too, so the outcome is decided by the replay guard, the proof
    and the length of the cleartexts. *)
Theorem state_binding_holds_on_reached_storage
  (deployer : address) (tr : list Call) (env : Env) (rid : uint256) (ct pf : bytes) :
  let s := run (deploy deployer) tr in
  let c := mkCall env (MyCallback rid ct pf) in
  exec s c <> Revert StateMismatch
  /\ forall ctx, decryptionContexts s !! rid = Some ctx ->
       exec s c =
       if processed ctx then Revert ReplayAttempt
       else if negb (FHE_checkSignatures rid ct pf) then Revert InvalidProof
       else if (128 <=? length ct)%nat
            then Ok (step s c, emitted s c) else Revert SliceOutOfBounds.
Proof.
  cbv zeta. destruct (reached_ok deployer tr) as [[Hcur Hout] Hb].
  set (s := run (deploy deployer) tr) in *.
  assert (Hstored : forall ctx, decryptionContexts s !! rid = Some ctx ->
            exec s (mkCall env (MyCallback rid ct pf)) =
            if processed ctx then Revert ReplayAttempt
            else if negb (FHE_checkSignatures rid ct pf) then Revert InvalidProof
            else if (128 <=? length ct)%nat
                 then Ok (step s (mkCall env (MyCallback rid ct pf)),
                          emitted s (mkCall env (MyCallback rid ct pf)))
                 else Revert SliceOutOfBounds).
  { intros ctx Hctx. destruct (Hb rid ctx Hctx) as (_ & Hi & Hh).
    unfold _hashCiphertexts in Hh.
    destruct (Nat.leb_spec 128 (length ct)) as [Hle|Hgt];
      unfold step, emitted; rewrite myCallback_eq; cbv zeta;
      unfold decryptionContexts_at; rewrite Hctx; simpl;
      (destruct (processed ctx); [reflexivity|]);
      rewrite Hi, Hh, Z.eqb_refl; simpl;
      (destruct (FHE_checkSignatures rid ct pf); [|reflexivity]); simpl.
    - now rewrite !slice_fits by lia.
    - unfold slice.
      destruct (Nat.leb_spec 32 (length ct)); [|reflexivity].
      destruct (Nat.leb_spec 64 (length ct)); [|reflexivity].
      destruct (Nat.leb_spec 96 (length ct)); [|reflexivity].
      destruct (Nat.leb_spec 128 (length ct)); [lia|reflexivity]. }
  split; [|exact Hstored].
  destruct (decryptionContexts s !! rid) as [ctx|] eqn:Hctx.
  - rewrite (Hstored ctx eq_refl).
    destruct (processed ctx); [discriminate|].
    destruct (negb (FHE_checkSignatures rid ct pf)); [discriminate|].
    destruct (128 <=? length ct)%nat; discriminate.
  - rewrite myCallback_eq. cbv zeta. unfold decryptionContexts_at. rewrite Hctx.
    simpl. destruct (Hout 0) as [_ Hnone]; [lia|].
    unfold batchResults_at. rewrite Hnone. simpl.
    rewrite default_uninitialized. discriminate.
Qed.

(** X12. On any storage reached from deployment, a callback for a request
    id that no request was ever stored under reverts with
    [NotInitialized], whatever cleartexts and proof it carries. *)
Theorem unknown_request_id_is_rejected
  (deployer : address) (tr : list Call) (env : Env) (rid : uint256) (ct pf : bytes) :
  decryptionContexts (run (deploy deployer) tr) !! rid = None ->
  exec (run (deploy deployer) tr) (mkCall env (MyCallback rid ct pf))
  = Revert NotInitialized.
Proof.
  intros Hnone. destruct (reached_ok deployer tr) as [[Hcur Hout] _].
  rewrite myCallback_eq. cbv zeta. unfold decryptionContexts_at. rewrite Hnone.
  simpl. destruct (Hout 0) as [_ Hres]; [lia|].
  unfold batchResults_at. rewrite Hres. simpl.
  now rewrite default_uninitialized.
Qed.

(** X13. A batch that is closed while it has no accumulators (no
    submission was ever accepted into it) can never be decrypted: whatever
    calls follow, every [requestBatchDecryption] for it reverts, with
    [NotInitialized] when the caller passes the gates tested before. *)
Theorem empty_closed_batch_is_never_decryptable
  (s : State) (b : uint256) (tr : list Call) (env : Env) :
  batchClosed_at s b = true ->
  batchResults s !! b = None ->
  let s' := run s tr in
  let c := mkCall env (RequestBatchDecryption b) in
  is_ok (exec s' c) = false
  /\ (msg_sender env = owner s' -> paused s' = false ->
      block_timestamp env <= MAX_UINT256 ->
      lastDecryptionRequestTime_at s' (msg_sender env) + cooldownSeconds s'
        <= block_timestamp env ->
      exec s' c = Revert NotInitialized).
Proof.
  intros Hclosed Hnone. cbv zeta.
  destruct (run_closed_batch tr s b Hclosed) as [Hc Hr].
  assert (Hinit : FHE_isInitialized
                    (totalValueSumEncrypted (batchResults_at (run s tr) b)) = false).
  { rewrite Hr. unfold batchResults_at. rewrite Hnone. exact default_uninitialized. }
  rewrite requestBatchDecryption_eq. cbv zeta. rewrite Hc, Hinit. simpl. split.
  - repeat match goal with
           | |- context [if ?x then _ else _] => destruct x
           end; reflexivity.
  - intros Ho Hp Hnow Hready. rewrite Ho in Hready. rewrite Ho, Z.eqb_refl, Hp. simpl.
    destruct (Z.leb_spec
                (lastDecryptionRequestTime_at (run s tr) (owner (run s tr))
                 + cooldownSeconds (run s tr)) MAX_UINT256); [|lia]. simpl.
    destruct (Z.ltb_spec (block_timestamp env)
                (lastDecryptionRequestTime_at (run s tr) (owner (run s tr))
                 + cooldownSeconds (run s tr))); [lia|reflexivity].
Qed.

End Reached.

(** ** Submissions over time *)

Section Resubmission.
Context {E : FHEVM}.

Ltac by_equation :=
  first [ rewrite transferOwnership_eq | rewrite addProvider_eq
        | rewrite removeProvider_eq | rewrite setPaused_eq
        | rewrite setCooldownSeconds_eq | rewrite openNewBatch_eq
        | rewrite closeCurrentBatch_eq | rewrite submitPortfolioData_eq
        | rewrite requestBatchDecryption_eq | rewrite myCallback_eq ].

Ltac passed H :=
  repeat match type of H with
         | (if ?b then _ else _) = _ => destruct b eqn:?; try discriminate
         | match slice ?c ?a ?b with _ => _ end = _ =>
             destruct (slice c a b) eqn:?; try discriminate
         end.

(** The engine's law on sums: adding returns an initialized handle. *)
Hypothesis sum_initialized :
  forall a b : euint32, FHE_isInitialized (FHE_add a b) = true.

Lemma step_stays_initialized (s : State) (c : Call) (R : uint256) :
  FHE_isInitialized (totalValueSumEncrypted (batchResults_at s R)) = true ->
  FHE_isInitialized (totalValueSumEncrypted (batchResults_at (step s c) R)) = true.
Proof.
  intros Hi. unfold step.
  destruct (exec s c) as [[s' evs]|err] eqn:Hexec; [|exact Hi].
  destruct c as [env op].
  destruct op; revert Hexec; by_equation; cbv zeta; intros Hexec; passed Hexec;
    inversion Hexec; subst; clear Hexec; try exact Hi.
  unfold batchResults_at in *. simpl.
  destruct (decide (currentBatchId s = R)) as [->|Hne].
  - rewrite lookup_insert_eq. simpl. apply sum_initialized.
  - now rewrite lookup_insert_ne.
Qed.

(** X14. Once a submission has been accepted into batch [R], the
    accumulators of [R] are initialized and stay so whatever calls follow;
    so as soon as [R] is closed, a [requestBatchDecryption] for it by the
    owner, unpaused and past the cooldown, is accepted. *)
Theorem accepted_submission_makes_batch_decryptable
  (s : State) (env : Env) (tv rp t1 t2 c1 c2 : euint32)
  (s1 : State) (evs : list Event) (tr : list Call) (env' : Env) :
  exec s (mkCall env (SubmitPortfolioData tv rp t1 t2 c1 c2)) = Ok (s1, evs) ->
  let R := currentBatchId s in
  let s2 := run s1 tr in
  FHE_isInitialized (totalValueSumEncrypted (batchResults_at s2 R)) = true
  /\ (batchClosed_at s2 R = true ->
      msg_sender env' = owner s2 -> paused s2 = false ->
      block_timestamp env' <= MAX_UINT256 ->
      lastDecryptionRequestTime_at s2 (msg_sender env') + cooldownSeconds s2
        <= block_timestamp env' ->
      is_ok (exec s2 (mkCall env' (RequestBatchDecryption R))) = true).
Proof.
  intros Hok. cbv zeta.
  assert (H1 : FHE_isInitialized
                 (totalValueSumEncrypted (batchResults_at s1 (currentBatchId s))) = true).
  { destruct (submitPortfolioData_accepted _ _ _ _ _ _ _ _ _ _ Hok) as (Hres & _).
    rewrite Hres. simpl. apply sum_initialized. }
  assert (H2 : FHE_isInitialized
                 (totalValueSumEncrypted
                    (batchResults_at (run s1 tr) (currentBatchId s))) = true).
  { clear Hok. revert s1 H1. induction tr as [|c tr IH]; intros s1 H1; [exact H1|].
    rewrite run_cons. apply IH, step_stays_initialized, H1. }
  split; [exact H2|].
  intros Hc Ho Hp Hnow Hready. rewrite Ho in Hready.
  rewrite requestBatchDecryption_eq. cbv zeta.
  rewrite Ho, Z.eqb_refl, Hp, Hc, H2. simpl.
  destruct (Z.leb_spec
              (lastDecryptionRequestTime_at (run s1 tr) (owner (run s1 tr))
               + cooldownSeconds (run s1 tr)) MAX_UINT256); [|lia]. simpl.
  destruct (Z.ltb_spec (block_timestamp env')
              (lastDecryptionRequestTime_at (run s1 tr) (owner (run s1 tr))
               + cooldownSeconds (run s1 tr))); [lia|reflexivity].
Qed.


End Resubmission.

(** ** Rate limit *)

Section RateLimit.
Context {E : FHEVM}.

Ltac by_equation :=
  first [ rewrite transferOwnership_eq | rewrite addProvider_eq
        | rewrite removeProvider_eq | rewrite setPaused_eq
        | rewrite setCooldownSeconds_eq | rewrite openNewBatch_eq
        | rewrite closeCurrentBatch_eq | rewrite submitPortfolioData_eq
        | rewrite requestBatchDecryption_eq | rewrite myCallback_eq ].

Ltac passed H :=
  repeat match type of H with
         | (if ?b then _ else _) = _ => destruct b eqn:?; try discriminate
         | match slice ?c ?a ?b with _ => _ end = _ =>
             destruct (slice c a b) eqn:?; try discriminate
         end.

Lemma step_keeps_window (s : State) (c : Call) (a : address) (t : uint256) :
  is_setCooldownSeconds (call_op c) = false ->
  0 <= cooldownSeconds s ->
  t <= lastSubmissionTime_at s a ->
  cooldownSeconds (step s c) = cooldownSeconds s
  /\ t <= lastSubmissionTime_at (step s c) a.
Proof.
  intros Hop Hcd Ht. unfold step.
  destruct (exec s c) as [[s' evs]|err] eqn:Hexec; [|now split].
  destruct c as [env op].
  destruct op; try discriminate; revert Hexec; by_equation; cbv zeta;
    intros Hexec; passed Hexec; inversion Hexec; subst; clear Hexec;
    try (now split).
  split; [reflexivity|]. unfold lastSubmissionTime_at in *. simpl.
  destruct (decide (msg_sender env = a)) as [Heq|Hne].
  - rewrite <- Heq in *. rewrite lookup_insert_eq. simpl.
    match goal with
    | H : (_ <? _) = false |- _ => apply Z.ltb_ge in H
    end. lia.
  - now rewrite lookup_insert_ne.
Qed.

(** X16. One accepted submission per address per cooldown window: after
    an accepted submission by [a] at time [t], and whatever calls follow
    other than [setCooldownSeconds], no submission by [a] at a time before
    [t + cooldownSeconds] is accepted. *)
Theorem one_submission_per_window
  (s : State) (env : Env) (tv rp t1 t2 c1 c2 : euint32)
  (s1 : State) (evs : list Event) (tr : list Call)
  (env' : Env) (tv' rp' t1' t2' c1' c2' : euint32) :
  exec s (mkCall env (SubmitPortfolioData tv rp t1 t2 c1 c2)) = Ok (s1, evs) ->
  0 <= cooldownSeconds s ->
  Forall (fun c => is_setCooldownSeconds (call_op c) = false) tr ->
  msg_sender env' = msg_sender env ->
  block_timestamp env' < block_timestamp env + cooldownSeconds s ->
  is_ok (exec (run s1 tr)
           (mkCall env' (SubmitPortfolioData tv' rp' t1' t2' c1' c2'))) = false.
Proof.
  intros Hok Hcd Hquiet Hsame Hearly.
  assert (H1 : cooldownSeconds s1 = cooldownSeconds s
               /\ block_timestamp env <= lastSubmissionTime_at s1 (msg_sender env)).
  { rewrite submitPortfolioData_eq in Hok. cbv zeta in Hok. passed Hok.
    inversion Hok; subst. split; [reflexivity|].
    unfold lastSubmissionTime_at. simpl. rewrite lookup_insert_eq. simpl. lia. }
  assert (H2 : cooldownSeconds (run s1 tr) = cooldownSeconds s
               /\ block_timestamp env
                  <= lastSubmissionTime_at (run s1 tr) (msg_sender env)).
  { clear Hok. revert s1 H1.
    induction Hquiet as [|c tr Hc _ IH]; intros s1 [Hcd1 Ht1]; [now split|].
    rewrite run_cons.
    destruct (step_keeps_window s1 c (msg_sender env) (block_timestamp env) Hc)
      as [Hcd2 Ht2]; [lia|exact Ht1|].
    apply IH. split; [congruence|exact Ht2]. }
  destruct H2 as [Hcd2 Ht2].
  rewrite submitPortfolioData_eq. cbv zeta. rewrite Hsame, Hcd2.
  destruct (negb (providers_at (run s1 tr) (msg_sender env))); [reflexivity|].
  destruct (paused (run s1 tr)); [reflexivity|].
  destruct (negb (_ <=? MAX_UINT256)); [reflexivity|].
  destruct (Z.ltb_spec (block_timestamp env')
              (lastSubmissionTime_at (run s1 tr) (msg_sender env) + cooldownSeconds s));
    [reflexivity|lia].
Qed.

End RateLimit.

(** ** The dashboard's lists *)

Section DashboardFacts.
Import Dashboard.
Local Open Scope nat_scope.

Lemma firstn_cons_firstn {A} (k : nat) (x : A) (p : list A) :
  (k <= 10)%nat -> firstn k (x :: firstn 9 p) = firstn k (x :: p).
Proof.
  intros Hk. destruct k as [|k]; [reflexivity|]. simpl. f_equal.
  rewrite firstn_firstn. f_equal. lia.
Qed.

Lemma notify_window (calls : list (string * string)) (prev : list string) :
  (length prev <= 10)%nat ->
  notify calls prev =
  firstn 10 (rev (map (fun c => ("[" ++ fst c ++ "] " ++ snd c)%string) calls) ++ prev).
Proof.
  revert prev. induction calls as [|c calls IH]; intros prev Hlen.
  - simpl. symmetry. apply firstn_all2. exact Hlen.
  - unfold notify in *. cbn [fold_left map rev].
    rewrite IH.
    + unfold addNotification. rewrite <- app_assoc. cbn [app].
      rewrite !firstn_app. f_equal. apply firstn_cons_firstn. lia.
    + unfold addNotification. cbn [length]. rewrite length_firstn. lia.
Qed.

(** X17. The notification panel holds the ten most recent
    notifications, newest first: after any series of [addNotification]
    calls on the initially empty list, the list is the first ten of the
    stamped messages in reverse order of arrival, so it never grows past
    ten entries. *)
Theorem notifications_keep_the_last_ten (calls : list (string * string)) :
  notify calls [] =
    firstn 10 (rev (map (fun c => ("[" ++ fst c ++ "] " ++ snd c)%string) calls))
  /\ length (notify calls []) = Nat.min 10 (length calls).
Proof.
  assert (H : notify calls [] =
              firstn 10 (rev (map (fun c => ("[" ++ fst c ++ "] " ++ snd c)%string)
                                  calls))).
  { rewrite notify_window by (simpl; lia). now rewrite app_nil_r. }
  split; [exact H|].
  rewrite H, length_firstn, length_rev, length_map. reflexivity.
Qed.

Section Filtering.
Variable toLowerCase : string -> string.
Variable includes : string -> string -> bool.

Lemma counts_le (portfolios : list PortfolioRecord) :
  (activeCount portfolios + inactiveCount portfolios <= length portfolios)%nat
  /\ (activeCount portfolios + inactiveCount portfolios = length portfolios <->
      Forall (fun p => status p = "active"%string \/ status p = "inactive"%string)
             portfolios).
Proof.
  unfold activeCount, inactiveCount.
  induction portfolios as [|p l [IHle IHeq]]; [simpl; split; [lia|]; split; auto|].
  cbn [List.filter].
  destruct (String.eqb_spec (status p) "active") as [Ha|Ha];
    destruct (String.eqb_spec (status p) "inactive") as [Hi|Hi];
    cbn [length]; try (rewrite Ha in Hi; discriminate);
    (split; [lia|]); split; intros H.
  - constructor; [now left|]. apply IHeq. lia.
  - inversion H as [|? ? _ Hl]; subst. apply IHeq in Hl. lia.
  - constructor; [now right|]. apply IHeq. lia.
  - inversion H as [|? ? _ Hl]; subst. apply IHeq in Hl. lia.
  - lia.
  - inversion H as [|? ? Hp _]; subst. tauto.
Qed.

Lemma filter_sublist {A} (f : A -> bool) (l : list A) : sublist (List.filter f l) l.
Proof.
  induction l as [|x l IH]; [constructor|]. cbn [List.filter].
  destruct (f x); [now apply sublist_skip|now apply sublist_cons].
Qed.

Lemma filter_and_length {A} (g f : A -> bool) (l : list A) :
  length (List.filter (fun x => g x && f x) l) <= length (List.filter f l).
Proof.
  induction l as [|x l IH]; [reflexivity|]. cbn [List.filter].
  destruct (g x), (f x); cbn [andb length]; lia.
Qed.

Lemma filter_and_Forall {A} (g f : A -> bool) (l : list A) :
  Forall (fun x => f x = true) (List.filter (fun x => g x && f x) l).
Proof.
  apply List.Forall_forall. intros x Hx. apply filter_In in Hx as [_ Hx].
  now apply andb_true_iff in Hx.
Qed.

(** X18. The dashboard's counts and filtered list: the active and the
    inactive count never add up to more than the number of portfolios, and
    add up to it exactly when every status is ["active"] or ["inactive"];
    the filtered list keeps the order of the loaded one, under the filter
    ["active"] (respectively ["inactive"]) holds only portfolios with that
    status and no more of them than the count shows, and under a filter
    value other than the three offered it is empty. *)
Theorem dashboard_counts_and_filter
  (searchTerm activeFilter : string) (portfolios : list PortfolioRecord) :
  let shown := filteredPortfolios toLowerCase includes searchTerm activeFilter portfolios in
  (activeCount portfolios + inactiveCount portfolios <= length portfolios)
  /\ (activeCount portfolios + inactiveCount portfolios = length portfolios <->
      Forall (fun p => status p = "active"%string \/ status p = "inactive"%string)
             portfolios)
  /\ sublist shown portfolios
  /\ (activeFilter = "active"%string ->
      Forall (fun p => status p = "active"%string) shown
      /\ length shown <= activeCount portfolios)
  /\ (activeFilter = "inactive"%string ->
      Forall (fun p => status p = "inactive"%string) shown
      /\ length shown <= inactiveCount portfolios)
  /\ (activeFilter <> "all"%string -> activeFilter <> "active"%string ->
      activeFilter <> "inactive"%string -> shown = []).
Proof.
  cbv zeta. destruct (counts_le portfolios) as [Hle Heq].
  split; [exact Hle|]. split; [exact Heq|]. split; [apply filter_sublist|].
  unfold filteredPortfolios, activeCount, inactiveCount.
  split; [|split].
  - intros ->. change (String.eqb "active" "all") with false.
    change (String.eqb "active" "active") with true.
    change (String.eqb "active" "inactive") with false.
    cbn [andb orb]. split.
    + eapply Forall_impl; [apply filter_and_Forall|].
      intros p Hp. cbv beta in Hp. apply String.eqb_eq.
      now rewrite orb_false_r in Hp.
    + erewrite filter_ext; [apply filter_and_length|].
      intros p. cbv beta. now rewrite orb_false_r.
  - intros ->. change (String.eqb "inactive" "all") with false.
    change (String.eqb "inactive" "active") with false.
    change (String.eqb "inactive" "inactive") with true.
    cbn [andb orb]. split.
    + eapply Forall_impl; [apply filter_and_Forall|].
      intros p Hp. cbv beta in Hp. now apply String.eqb_eq.
    + apply filter_and_length.
  - intros H1 H2 H3.
    apply String.eqb_neq in H1, H2, H3. rewrite H1, H2, H3. cbn [andb orb].
    clear. induction portfolios as [|p l IH]; [reflexivity|]. cbn [List.filter].
    now rewrite andb_false_r.
Qed.

End Filtering.

End DashboardFacts.

(** ** The further properties, run on the small engine *)

Section MoreScenarios.
Import Toy.

Ltac run_accepted :=
  match goal with
  | |- exec ?s ?c = Ok _ => refine (exec_accepted s c _); vm_compute; reflexivity
  end.
Ltac run_reverted :=
  match goal with
  | |- exec ?s ?c = Revert ?e => refine (exec_reverted s c e _); vm_compute; reflexivity
  end.
Ltac evaluate := vm_compute; first [reflexivity | discriminate].

Lemma engine_default_uninitialized : FHE_isInitialized euint32_default = false.
Proof. reflexivity. Qed.

Lemma absent_by_lookup {A} (o : option A) :
  match o with None => true | Some _ => false end = true -> o = None.
Proof. now destruct o. Qed.

(** X1 on the scenario: after batch 1 is closed the owner opens batch 2. *)
Lemma new_batch_starts_open_and_empty_witness :
  let tr := [tx 1 100 (submission P); tx 1 101 CloseCurrentBatch] in
  let s := run (deploy 1) tr in
  let s' := step s (tx 1 102 OpenNewBatch) in
  exec s (tx 1 102 OpenNewBatch) = Ok (s', emitted s (tx 1 102 OpenNewBatch))
  /\ currentBatchId s' = currentBatchId s + 1
  /\ batchClosed_at s' (currentBatchId s') = false.
Proof.
  intros tr s s'.
  assert (H : exec s (tx 1 102 OpenNewBatch)
              = Ok (s', emitted s (tx 1 102 OpenNewBatch))) by run_accepted.
  destruct (new_batch_starts_open_and_empty 1 tr (mkEnv 1 102 0) s' _ H)
    as (H1 & _ & H3 & _).
  split; [exact H|]. split; [exact H1|exact H3].
Defined.

(** X3 on a deployment where batch 2 is opened while batch 1 is open. *)
Lemma superseded_open_batch_is_stuck_witness :
  let s := run (deploy 1) [tx 1 100 OpenNewBatch] in
  let tr := [tx 1 101 CloseCurrentBatch; tx 1 102 (submission P)] in
  batchClosed_at s 1 = false
  /\ 1 < currentBatchId s
  /\ batchClosed_at (run s tr) 1 = false
  /\ is_ok (exec (run s tr) (tx_id 1 200 9 (RequestBatchDecryption 1))) = false.
Proof.
  intros s tr.
  assert (H1 : batchClosed_at s 1 = false) by evaluate.
  assert (H2 : 1 < currentBatchId s) by evaluate.
  destruct (superseded_open_batch_is_stuck s 1 tr H1 H2) as (Hc & _ & Hreq).
  split; [exact H1|]. split; [exact H2|]. split; [exact Hc|].
  exact (Hreq (mkEnv 1 200 9)).
Defined.

(** X4 on the deployed contract: address 5 tries to enrol itself. *)
Lemma non_owner_cannot_administer_witness :
  let c := tx 5 10 (AddProvider 5) in
  msg_sender (call_env c) <> owner s_deployed
  /\ exec s_deployed c = Revert NotOwner
  /\ providers (step s_deployed c) = providers s_deployed.
Proof.
  intros c.
  assert (H : msg_sender (call_env c) <> owner s_deployed) by evaluate.
  destruct (non_owner_cannot_administer s_deployed c H) as (Hrev & _ & Hp & _).
  split; [exact H|]. split; [exact (Hrev eq_refl)|exact Hp].
Defined.

(** X6 on the deployed contract: address 1 hands it over to address 9. *)
Lemma ownership_handover_witness :
  let s' := step s_deployed (tx 1 5 (TransferOwnership 9)) in
  exec s_deployed (tx 1 5 (TransferOwnership 9))
    = Ok (s', emitted s_deployed (tx 1 5 (TransferOwnership 9)))
  /\ 9 <> owner s_deployed
  /\ exec s' (tx 1 6 (AddProvider 5)) = Revert NotOwner
  /\ is_ok (exec s' (tx 9 6 (AddProvider 5))) = true.
Proof.
  intros s'.
  assert (H : exec s_deployed (tx 1 5 (TransferOwnership 9))
              = Ok (s', emitted s_deployed (tx 1 5 (TransferOwnership 9))))
    by run_accepted.
  assert (Hne : 9 <> owner s_deployed) by evaluate.
  assert (Hold : msg_sender (mkEnv 1 6 0) = owner s_deployed) by evaluate.
  destruct (ownership_handover _ _ _ _ _ H Hne) as [Hout Hin].
  split; [exact H|]. split; [exact Hne|]. split.
  - exact (Hout (mkEnv 1 6 0) (AddProvider 5) Hold eq_refl).
  - exact (Hin (mkEnv 9 6 0) (AddProvider 5) eq_refl eq_refl eq_refl).
Defined.


(** X9 on the scenario: between the request and the callback a new batch
    is opened and a submission is made into it. *)
Lemma pending_request_can_be_completed_witness :
  let tr := [tx 1 300 OpenNewBatch; tx 1 301 (submission Q)] in
  let w (i : nat) := abi_decode_uint256 (firstn 32 (skipn (32 * i) cleartexts_ok)) in
  exec s_closed (tx_id 1 102 7 (RequestBatchDecryption 1))
    = Ok (s_requested, emitted s_closed (tx_id 1 102 7 (RequestBatchDecryption 1)))
  /\ Forall (fun c => reissues 7 c = false /\ callback_for 7 c = false) tr
  /\ FHE_checkSignatures 7 cleartexts_ok proof_ok = true
  /\ (128 <= length cleartexts_ok)%nat
  /\ exists s2,
       exec (run s_requested tr) (mkCall (mkEnv 999 400 0) (MyCallback 7 cleartexts_ok proof_ok))
       = Ok (s2, [DecryptionCompleted 7 1 (w 0%nat) (w 1%nat) (w 2%nat) (w 3%nat)])
       /\ processed (decryptionContexts_at s2 7) = true.
Proof.
  intros tr w.
  assert (H : exec s_closed (tx_id 1 102 7 (RequestBatchDecryption 1))
              = Ok (s_requested,
                    emitted s_closed (tx_id 1 102 7 (RequestBatchDecryption 1))))
    by run_accepted.
  assert (F : Forall (fun c => reissues 7 c = false /\ callback_for 7 c = false) tr)
    by (repeat constructor).
  assert (Hsig : FHE_checkSignatures 7 cleartexts_ok proof_ok = true) by evaluate.
  assert (Hlen : (128 <= length cleartexts_ok)%nat)
    by (apply Nat.leb_le; vm_compute; reflexivity).
  split; [exact H|]. split; [exact F|]. split; [exact Hsig|]. split; [exact Hlen|].
  exact (proj2 (proj2 (pending_request_can_be_completed s_closed (mkEnv 1 102 7) 1
                         s_requested _ tr (mkEnv 999 400 0) cleartexts_ok proof_ok
                         H F Hsig Hlen))).
Defined.

(** X10 on the scenario's callback. *)
Lemma callback_publishes_the_four_words_witness :
  let w (i : nat) := abi_decode_uint256 (firstn 32 (skipn (32 * i) cleartexts_ok)) in
  exec s_requested (callback_ok 999 200)
    = Ok (s_completed, emitted s_requested (callback_ok 999 200))
  /\ emitted s_requested (callback_ok 999 200)
     = [DecryptionCompleted 7 (batchId (decryptionContexts_at s_requested 7))
          (w 0%nat) (w 1%nat) (w 2%nat) (w 3%nat)]
  /\ 0 <= w 3%nat <= MAX_UINT256.
Proof.
  intros w.
  assert (H : exec s_requested (callback_ok 999 200)
              = Ok (s_completed, emitted s_requested (callback_ok 999 200)))
    by run_accepted.
  destruct (callback_publishes_the_four_words _ _ _ _ _ _ _ H) as (Hev & Hb & _).
  split; [exact H|]. split; [exact Hev|exact (Hb 3%nat)].
Defined.

(** X11 on the scenario, with the request pending. *)
Lemma state_binding_holds_on_reached_storage_witness :
  let tr := [tx 1 100 (submission P); tx 1 101 CloseCurrentBatch;
             tx_id 1 102 7 (RequestBatchDecryption 1)] in
  FHE_isInitialized euint32_default = false
  /\ exec (run (deploy 1) tr) (mkCall (mkEnv 999 200 0) (MyCallback 7 cleartexts_ok proof_bad))
     <> Revert StateMismatch.
Proof.
  intros tr. split; [exact engine_default_uninitialized|].
  exact (proj1 (state_binding_holds_on_reached_storage engine_default_uninitialized
                  1 tr (mkEnv 999 200 0) 7 cleartexts_ok proof_bad)).
Defined.

(** X12 on the scenario: request id 8 was never issued. *)
Lemma unknown_request_id_is_rejected_witness :
  let tr := [tx 1 100 (submission P); tx 1 101 CloseCurrentBatch;
             tx_id 1 102 7 (RequestBatchDecryption 1)] in
  FHE_isInitialized euint32_default = false
  /\ decryptionContexts (run (deploy 1) tr) !! 8 = None
  /\ exec (run (deploy 1) tr) (mkCall (mkEnv 999 200 0) (MyCallback 8 cleartexts_ok proof_ok))
     = Revert NotInitialized.
Proof.
  intros tr.
  assert (Hnone : decryptionContexts (run (deploy 1) tr) !! 8 = None)
    by (apply absent_by_lookup; vm_compute; reflexivity).
  split; [exact engine_default_uninitialized|]. split; [exact Hnone|].
  exact (unknown_request_id_is_rejected engine_default_uninitialized
           1 tr (mkEnv 999 200 0) 8 cleartexts_ok proof_ok Hnone).
Defined.

(** X13 on a deployment whose first batch is closed before any
    submission. *)
Lemma empty_closed_batch_is_never_decryptable_witness :
  let s := step s_deployed (tx 1 50 CloseCurrentBatch) in
  let tr := [tx 1 60 OpenNewBatch] in
  FHE_isInitialized euint32_default = false
  /\ batchClosed_at s 1 = true
  /\ batchResults s !! 1 = None
  /\ exec (run s tr) (mkCall (mkEnv 1 200 9) (RequestBatchDecryption 1))
     = Revert NotInitialized.
Proof.
  intros s tr.
  assert (Hc : batchClosed_at s 1 = true) by evaluate.
  assert (Hn : batchResults s !! 1 = None)
    by (apply absent_by_lookup; vm_compute; reflexivity).
  split; [exact engine_default_uninitialized|]. split; [exact Hc|]. split; [exact Hn|].
  apply (proj2 (empty_closed_batch_is_never_decryptable engine_default_uninitialized
                  s 1 tr (mkEnv 1 200 9) Hc Hn)); evaluate.
Defined.

(** X14 on the scenario: submit, close, request. *)
Lemma accepted_submission_makes_batch_decryptable_witness :
  let tr := [tx 1 101 CloseCurrentBatch] in
  (forall a b : euint32, FHE_isInitialized (FHE_add a b) = true)
  /\ exec s_deployed (tx 1 100 (submission P))
     = Ok (s_submitted, emitted s_deployed (tx 1 100 (submission P)))
  /\ is_ok (exec (run s_submitted tr)
              (mkCall (mkEnv 1 102 7) (RequestBatchDecryption (currentBatchId s_deployed))))
     = true.
Proof.
  intros tr.
  assert (L : forall a b : euint32, FHE_isInitialized (FHE_add a b) = true)
    by exact (@FHE_add_initialized engine engine_additive).
  assert (H : exec s_deployed (tx 1 100 (submission P))
              = Ok (s_submitted, emitted s_deployed (tx 1 100 (submission P))))
    by run_accepted.
  split; [exact L|]. split; [exact H|].
  apply (proj2 (accepted_submission_makes_batch_decryptable L _ _ _ _ _ _ _ _ _ _
                  tr (mkEnv 1 102 7) H)); evaluate.
Defined.


(** X16 on the scenario: address 1 tries again 30 seconds later. *)
Lemma one_submission_per_window_witness :
  let tr := [tx 1 101 OpenNewBatch] in
  exec s_deployed (tx 1 100 (submission P))
    = Ok (s_submitted, emitted s_deployed (tx 1 100 (submission P)))
  /\ 0 <= cooldownSeconds s_deployed
  /\ 130 < 100 + cooldownSeconds s_deployed
  /\ is_ok (exec (run s_submitted tr) (tx 1 130 (submission Q))) = false.
Proof.
  intros tr.
  assert (H : exec s_deployed (tx 1 100 (submission P))
              = Ok (s_submitted, emitted s_deployed (tx 1 100 (submission P))))
    by run_accepted.
  assert (Hcd : 0 <= cooldownSeconds s_deployed) by evaluate.
  assert (Hearly : 130 < 100 + cooldownSeconds s_deployed) by evaluate.
  assert (F : Forall (fun c => is_setCooldownSeconds (call_op c) = false) tr)
    by (repeat constructor).
  split; [exact H|]. split; [exact Hcd|]. split; [exact Hearly|].
  exact (one_submission_per_window s_deployed (mkEnv 1 100 0) _ _ _ _ _ _
           s_submitted _ tr (mkEnv 1 130 0)
           (enc 250) (enc 5) (enc 30) (enc 70) (enc 45) (enc 55)
           H Hcd F eq_refl Hearly).
Defined.

End MoreScenarios.
